(** * Endpoint responder console commands

    A shallow embedding of
    [x-pack/plugins/security_solution/public/management/components/endpoint_responder/lib/console_commands_definition.ts]
    and the properties of the command registry, its capability / privilege
    gate and its argument validators. *)

From Stdlib Require Import ZArith Ascii String List Bool Lia.
From Stdlib Require Import DecimalString DecimalN.
From stdpp Require Import base strings gmap list.

(** ** JavaScript built-ins used by the validators

    Strings are sequences of code units; this development covers code units
    below 256, which is what [ascii] holds. *)

Module JS.

(** [WhiteSpace] and [LineTerminator] code units below 256: TAB, LF, VT, FF,
    CR, SP and NBSP. *)
Definition isWhiteSpace (c : ascii) : bool :=
  let n := N_of_ascii c in
  ((n =? 9) || (n =? 10) || (n =? 11) || (n =? 12) || (n =? 13)
   || (n =? 32) || (n =? 160))%N.

Fixpoint trimStart (s : string) : string :=
  match s with
  | EmptyString => EmptyString
  | String c r => if isWhiteSpace c then trimStart r else s
  end.

Fixpoint trimEnd (s : string) : string :=
  match s with
  | EmptyString => EmptyString
  | String c r =>
      match trimEnd r with
      | EmptyString => if isWhiteSpace c then EmptyString else String c EmptyString
      | r' => String c r'
      end
  end.

(** [String.prototype.trim] *)
Definition trim (s : string) : string := trimEnd (trimStart s).

(** A Number value: NaN, an infinity, or the finite double
    [(-1)^negative * m * 2^q] with [0 <= m]. *)
Inductive Number : Type :=
  | NaN
  | Infinity (negative : bool)
  | Finite (negative : bool) (m q : Z).

(** The double nearest to the positive rational [n / d], ties to even
    (binary64: 53 bits of precision, least exponent -1074, overflow at
    2^1024). *)
Definition roundBinary64 (negative : bool) (n d : Z) : Number :=
  if (n =? 0)%Z then Finite negative 0 0
  else
    let e0 := (Z.log2 n - Z.log2 d)%Z in
    let ge := if (0 <=? e0)%Z then (d * 2 ^ e0 <=? n)%Z
              else (d <=? n * 2 ^ (- e0))%Z in
    let e := if ge then e0 else (e0 - 1)%Z in
    let q := Z.max (e - 52) (-1074) in
    let num := if (q <? 0)%Z then (n * 2 ^ (- q))%Z else n in
    let den := if (q <? 0)%Z then d else (d * 2 ^ q)%Z in
    let m := (num / den)%Z in
    let r := (num mod den)%Z in
    let m' := if (2 * r <? den)%Z then m
              else if (den <? 2 * r)%Z then (m + 1)%Z
              else if Z.even m then m else (m + 1)%Z in
    if ((0 <=? q) && (2 ^ 1024 <=? m' * 2 ^ q))%Z then Infinity negative
    else Finite negative m' q.

(** The Number for the decimal [m * 10^e]. *)
Definition ofDecimal (negative : bool) (m e : Z) : Number :=
  if (0 <=? e)%Z then roundBinary64 negative (m * 10 ^ e) 1
  else roundBinary64 negative m (10 ^ (- e)).

Definition digitOf (c : ascii) : option Z :=
  let n := Z.of_N (N_of_ascii c) in
  if ((48 <=? n) && (n <=? 57))%Z then Some (n - 48)%Z
  else if ((97 <=? n) && (n <=? 102))%Z then Some (n - 87)%Z
  else if ((65 <=? n) && (n <=? 70))%Z then Some (n - 55)%Z
  else None.

Definition digitIn (radix : Z) (c : ascii) : option Z :=
  match digitOf c with
  | Some v => if (v <? radix)%Z then Some v else None
  | None => None
  end.

(** Reads the longest prefix of digits of [s]: the value accumulated on
    [acc], the number of digits read added to [n], and the rest. *)
Fixpoint scanDigits (radix acc n : Z) (s : string) : Z * Z * string :=
  match s with
  | EmptyString => (acc, n, s)
  | String c r =>
      match digitIn radix c with
      | Some v => scanDigits radix (radix * acc + v)%Z (n + 1)%Z r
      | None => (acc, n, s)
      end
  end.

(** [NonDecimalIntegerLiteral] without its prefix: one digit or more, and
    nothing after them. *)
Definition parseDigits (radix : Z) (s : string) : option Z :=
  match scanDigits radix 0 0 s with
  | (v, n, EmptyString) => if (0 <? n)%Z then Some v else None
  | _ => None
  end.

(** [SignedInteger] of an [ExponentPart], which ends the literal. *)
Definition parseExponent (s : string) : option Z :=
  match s with
  | String "+" r => parseDigits 10 r
  | String "-" r => option_map Z.opp (parseDigits 10 r)
  | _ => parseDigits 10 s
  end.

(** [StrUnsignedDecimalLiteral] other than [Infinity]: the digits read as an
    integer and the power of ten that scales them. *)
Definition parseUnsignedDecimal (s : string) : option (Z * Z) :=
  let '(ip, ni, r1) := scanDigits 10 0 0 s in
  let '(m, nf, r2) :=
    match r1 with
    | String "." r => scanDigits 10 ip 0 r
    | _ => (ip, 0%Z, r1)
    end in
  if (ni + nf =? 0)%Z then None
  else
    match r2 with
    | EmptyString => Some (m, (- nf)%Z)
    | String c r3 =>
        if (Ascii.eqb c "e" || Ascii.eqb c "E")%bool then
          match parseExponent r3 with
          | Some x => Some (m, (x - nf)%Z)
          | None => None
          end
        else None
    end.

Definition parseStrDecimalLiteral (negative : bool) (s : string) : Number :=
  if String.eqb s "Infinity" then Infinity negative
  else
    match parseUnsignedDecimal s with
    | Some (m, e) => ofDecimal negative m e
    | None => NaN
    end.

Definition ofInteger (v : option Z) : Number :=
  match v with
  | Some n => roundBinary64 false n 1
  | None => NaN
  end.

(** [StringToNumber]: the abstract operation behind [Number(string)]. *)
Definition StringToNumber (s : string) : Number :=
  match trim s with
  | EmptyString => Finite false 0 0
  | String "0" (String "x" r) | String "0" (String "X" r) => ofInteger (parseDigits 16 r)
  | String "0" (String "o" r) | String "0" (String "O" r) => ofInteger (parseDigits 8 r)
  | String "0" (String "b" r) | String "0" (String "B" r) => ofInteger (parseDigits 2 r)
  | String "+" r => parseStrDecimalLiteral false r
  | String "-" r => parseStrDecimalLiteral true r
  | t => parseStrDecimalLiteral false t
  end.

(** [Number.isSafeInteger]: finite, integral, magnitude at most 2^53 - 1. *)
Definition isSafeInteger (x : Number) : bool :=
  match x with
  | Finite _ m q =>
      if (0 <=? q)%Z then (m * 2 ^ q <=? 2 ^ 53 - 1)%Z
      else ((m mod 2 ^ (- q) =? 0) && (m / 2 ^ (- q) <=? 2 ^ 53 - 1))%Z
  | _ => false
  end.

(** [x > 0] *)
Definition gtZero (x : Number) : bool :=
  match x with
  | NaN => false
  | Infinity negative => negb negative
  | Finite negative m _ => negb negative && (0 <? m)%Z
  end.

End JS.

(** ** Values handed to the validators *)

(** An element of [ParsedArgData]. The type is declared in
    [console/service/types], which is not among the sources; the validators
    test [typeof argData[0] === 'string'], so an element is a string or the
    boolean the parser stores for an argument given without a value. *)
Inductive ArgValue : Type :=
  | VString (s : string)
  | VBoolean (b : bool).

Definition ParsedArgData : Type := list ArgValue.

(** The result type [true | string] of a validator. *)
Inductive ValidationResult : Type :=
  | VTrue
  | VMessage (message : string).

Module i18n.
(** [i18n.translate(id, { defaultMessage })] with no translation loaded. *)
Definition translate (id defaultMessage : string) : string := defaultMessage.
End i18n.

Definition ToString (v : ArgValue) : string :=
  match v with
  | VString s => s
  | VBoolean true => "true"
  | VBoolean false => "false"
  end.

(** [Array.prototype.join] *)
Fixpoint join (separator : string) (a : ParsedArgData) : string :=
  match a with
  | [] => EmptyString
  | [x] => ToString x
  | x :: r => ToString x +:+ separator +:+ join separator r
  end.

(** [String(argData)] and [Number(argData)] on an array: both go through
    [Array.prototype.toString], which joins with a comma. *)
Definition String_of (argData : ParsedArgData) : string := join "," argData.
Definition Number_of (argData : ParsedArgData) : JS.Number :=
  JS.StringToNumber (String_of argData).

(** ** The argument validators *)

Definition emptyArgumentValidator (argData : ParsedArgData) : ValidationResult :=
  if bool_decide (0 < length argData)
     && match argData !! 0%nat with
        | Some (VString s) => bool_decide (0 < String.length (JS.trim s))
        | _ => false
        end
  then VTrue
  else VMessage (i18n.translate
         "xpack.securitySolution.endpointConsoleCommands.emptyArgumentMessage"
         "Argument cannot be empty").

Definition pidValidator (argData : ParsedArgData) : ValidationResult :=
  let emptyResult := emptyArgumentValidator argData in
  match emptyResult with
  | VMessage _ => emptyResult
  | VTrue =>
      if JS.isSafeInteger (Number_of argData) && JS.gtZero (Number_of argData)
      then VTrue
      else VMessage (i18n.translate
             "xpack.securitySolution.endpointConsoleCommands.invalidPidMessage"
             "Argument must be a positive number representing the PID of a process")
  end.

Definition isUnitOfTime (c : ascii) : bool :=
  Ascii.eqb c "h" || Ascii.eqb c "m" || Ascii.eqb c "s".

(** Modelled from the spec: [validateUnitOfTime] is imported from [./utils],
    which is not among the sources. The spec gives the accepted strings as
    [<positive integer><unit>] with the unit one of h, m, s: decimal digits
    whose value is positive, then exactly one unit letter. *)
Definition validateUnitOfTime (value : string) : bool :=
  match JS.scanDigits 10 0 0 value with
  | (v, n, String u EmptyString) => (0 <? n)%Z && (0 <? v)%Z && isUnitOfTime u
  | _ => false
  end.

Definition executeTimeoutValidator (argData : ParsedArgData) : ValidationResult :=
  if bool_decide (0 < String.length (JS.trim (String_of argData)))
     && validateUnitOfTime (JS.trim (String_of argData))
  then VTrue
  else VMessage (i18n.translate
         "xpack.securitySolution.endpointConsoleCommands.invalidExecuteTimeout"
         "Argument must be a string with a positive integer value followed by a unit of time (h for hours, m for minutes, s for seconds). Example: 37m.").

(** ** Privileges, capabilities and the command table *)

(** The grants of [EndpointPrivileges] that the command table reads. *)
Record EndpointPrivileges : Type := {
  canIsolateHost : bool;
  canUnIsolateHost : bool;
  canKillProcess : bool;
  canSuspendProcess : bool;
  canGetRunningProcesses : bool;
  canWriteFileOperations : bool;
  canWriteExecuteOperations : bool
}.

Record CapabilityAndPrivilege : Type := {
  capability : string;
  privilege : EndpointPrivileges -> bool
}.

Definition commandTable : list (string * CapabilityAndPrivilege) :=
  [ ("isolate", {| capability := "isolation"; privilege := canIsolateHost |});
    ("release", {| capability := "isolation"; privilege := canUnIsolateHost |});
    ("kill-process", {| capability := "kill_process"; privilege := canKillProcess |});
    ("suspend-process",
       {| capability := "suspend_process"; privilege := canSuspendProcess |});
    ("processes",
       {| capability := "running_processes"; privilege := canGetRunningProcesses |});
    ("get-file", {| capability := "get_file"; privilege := canWriteFileOperations |});
    ("execute", {| capability := "execute"; privilege := canWriteExecuteOperations |}) ].

Definition commandToCapabilitiesPrivilegesMap : gmap string CapabilityAndPrivilege :=
  list_to_map commandTable.

(** [Array.prototype.includes] on an array of strings. *)
Definition includes (a : list string) (x : string) : bool := bool_decide (x ∈ a).

Definition getRbacControl (commandName : string) (privileges : EndpointPrivileges) : bool :=
  match commandToCapabilitiesPrivilegesMap !! commandName with
  | Some entry => privilege entry privileges
  | None => false
  end.

(** ** Command descriptors *)

Inductive ResultComponent : Type :=
  | IsolateActionResult
  | ReleaseActionResult
  | KillProcessActionResult
  | SuspendProcessActionResult
  | EndpointStatusActionResult
  | GetProcessesActionResult
  | GetFileActionResult
  | ExecuteActionResult.

(** The [about] of a command: a plain string, or the node built by
    [getCommandAboutInfo]. That function is imported from
    [./get_command_about_info], which is not among the sources; its call is
    kept as a node holding the two props it is given. *)
Inductive About : Type :=
  | AboutText (text : string)
  | CommandAboutInfo (aboutInfo : string) (isSupported : bool).

Definition getCommandAboutInfo (aboutInfo : string) (isSupported : bool) : About :=
  CommandAboutInfo aboutInfo isSupported.

Module Arg.
(** One entry of [args]; a key the source leaves out is [None]. *)
Record t : Type := {
  required : bool;
  allowMultiples : bool;
  exclusiveOr : option bool;
  about : string;
  mustHaveValue : option string;
  validate : option (ParsedArgData -> ValidationResult)
}.
End Arg.

(** [meta]: the status command stores the endpoint id alone. *)
Record Meta : Type := {
  endpointId : string;
  capabilities : option (list string);
  privileges : option EndpointPrivileges
}.

(** The one function the source stores in a command's [validate]. *)
Inductive CommandValidate : Type :=
  | CapabilitiesAndPrivilegesValidator.

Record CommandDefinition : Type := {
  name : string;
  about : About;
  RenderComponent : ResultComponent;
  meta : Meta;
  exampleUsage : option string;
  exampleInstruction : option string;
  validate : option CommandValidate;
  mustHaveArgs : option bool;
  args : list (string * Arg.t);
  helpGroupLabel : string;
  helpGroupPosition : Z;
  helpCommandPosition : Z;
  helpDisabled : option bool;
  helpHidden : option bool
}.

(** The entered command, of which the validator reads the definition. *)
Record Command : Type := {
  commandDefinition : CommandDefinition
}.

(** ** The capability and privilege gate *)

Inductive JSError : Type :=
  | TypeError.

(** The completion of a call: a value, or a thrown error. *)
Inductive Completion (A : Type) : Type :=
  | Normal (a : A)
  | Throw (e : JSError).
Arguments Normal {A} a.
Arguments Throw {A} e.

#[export] Instance Completion_ret : MRet Completion := @Normal.
#[export] Instance Completion_bind : MBind Completion := fun A B k c =>
  match c with
  | Normal a => k a
  | Throw e => Throw e
  end.

(** Truthiness of a possibly undefined string. *)
Definition truthy (s : option string) : bool :=
  match s with
  | Some (String _ _) => true
  | _ => false
  end.

(** [getRbacControl] called with the [privileges] of an untyped [meta]: when
    the command is in the table its privilege function reads a property of
    [privileges], which throws on [undefined]. *)
Definition getRbacControlOfMeta (commandName : string)
    (privileges : option EndpointPrivileges) : Completion bool :=
  match privileges with
  | Some p => Normal (getRbacControl commandName p)
  | None =>
      match commandToCapabilitiesPrivilegesMap !! commandName with
      | Some _ => Throw TypeError
      | None => Normal false
      end
  end.

Section Gate.

(** The two messages are imported from [common/translations], which is not
    among the sources. *)
Variable UPGRADE_ENDPOINT_FOR_RESPONDER : string.
Variable INSUFFICIENT_PRIVILEGES_FOR_COMMAND : string.

Definition capabilitiesAndPrivilegesValidator (command : Command)
  : Completion ValidationResult :=
  let privileges := privileges (meta (commandDefinition command)) in
  let endpointCapabilities := capabilities (meta (commandDefinition command)) in
  let commandName := name (commandDefinition command) in
  let responderCapability :=
    capability <$> (commandToCapabilitiesPrivilegesMap !! commandName) in
  let errorMessage := EmptyString in
  let errorMessage :=
    if negb (truthy responderCapability)
    then errorMessage +:+ UPGRADE_ENDPOINT_FOR_RESPONDER
    else errorMessage in
  errorMessage ←
    match responderCapability with
    | Some (String _ _ as responderCapability) =>
        match endpointCapabilities with
        | Some endpointCapabilities =>
            if negb (includes endpointCapabilities responderCapability)
            then Normal (errorMessage +:+ UPGRADE_ENDPOINT_FOR_RESPONDER)
            else Normal errorMessage
        | None => Throw TypeError
        end
    | _ => Normal errorMessage
    end;
  rbacControl ← getRbacControlOfMeta commandName privileges;
  let errorMessage :=
    if negb rbacControl
    then errorMessage +:+ INSUFFICIENT_PRIVILEGES_FOR_COMMAND
    else errorMessage in
  if bool_decide (0 < String.length errorMessage)
  then Normal (VMessage errorMessage)
  else Normal VTrue.

Definition runValidate (v : CommandValidate) (command : Command)
  : Completion ValidationResult :=
  match v with
  | CapabilitiesAndPrivilegesValidator => capabilitiesAndPrivilegesValidator command
  end.

End Gate.

(** ** The registry *)

Module HELP_GROUPS.
Module responseActions.
Definition position : Z := 0.
Definition label : string :=
  i18n.translate "xpack.securitySolution.endpointConsoleCommands.groups.responseActions"
    "Response actions".
End responseActions.
End HELP_GROUPS.

Definition ENTER_PID_OR_ENTITY_ID_INSTRUCTION : string :=
  i18n.translate
    "xpack.securitySolution.endpointResponseActionsConsoleCommands.enterPidOrEntityId"
    "Enter a pid or an entity id to execute".

Definition ENTER_OR_ADD_COMMENT_ARG_INSTRUCTION : string :=
  i18n.translate
    "xpack.securitySolution.endpointResponseActionsConsoleCommands.enterOrAddOptionalComment"
    "Hit enter to execute or add an optional comment".

Definition COMMENT_ARG_ABOUT : string :=
  i18n.translate "xpack.securitySolution.endpointConsoleCommands.suspendProcess.commandArgAbout"
    "A comment to go along with the action".

(** A text between double quotes, for the example usages. *)
Definition quoted (s : string) : string :=
  String "034"%char (s +:+ String "034"%char EmptyString).

Definition commentArg : Arg.t :=
  {| Arg.required := false; Arg.allowMultiples := false; Arg.exclusiveOr := None;
     Arg.about := COMMENT_ARG_ABOUT; Arg.mustHaveValue := None; Arg.validate := None |}.

(** The feature flags that [ExperimentalFeaturesService.get()] returns. *)
Record ExperimentalFeatures : Type := {
  responseActionGetFileEnabled : bool;
  responseActionExecuteEnabled : bool
}.

Section Descriptors.

Variable endpointAgentId : string.
Variable endpointCapabilities : list string.
Variable endpointPrivileges : EndpointPrivileges.

Definition doesEndpointSupportCommand (commandName : string) : bool :=
  let responderCapability :=
    capability <$> (commandToCapabilitiesPrivilegesMap !! commandName) in
  match responderCapability with
  | Some (String _ _ as responderCapability) =>
      includes endpointCapabilities responderCapability
  | _ => false
  end.

(** The [meta] shared by every command behind the gate. *)
Definition gatedMeta : Meta :=
  {| endpointId := endpointAgentId;
     capabilities := Some endpointCapabilities;
     privileges := Some endpointPrivileges |}.

Definition isolateCommand : CommandDefinition :=
  {| name := "isolate";
     about := getCommandAboutInfo
       (i18n.translate "xpack.securitySolution.endpointConsoleCommands.isolate.about"
          "Isolate the host")
       (doesEndpointSupportCommand "isolate");
     RenderComponent := IsolateActionResult;
     meta := gatedMeta;
     exampleUsage := Some ("isolate --comment " +:+ quoted "isolate this host");
     exampleInstruction := Some ENTER_OR_ADD_COMMENT_ARG_INSTRUCTION;
     validate := Some CapabilitiesAndPrivilegesValidator;
     mustHaveArgs := None;
     args := [("comment", commentArg)];
     helpGroupLabel := HELP_GROUPS.responseActions.label;
     helpGroupPosition := HELP_GROUPS.responseActions.position;
     helpCommandPosition := 0;
     helpDisabled := Some (Bool.eqb (doesEndpointSupportCommand "isolate") false);
     helpHidden := Some (negb (getRbacControl "isolate" endpointPrivileges)) |}.

Definition releaseCommand : CommandDefinition :=
  {| name := "release";
     about := getCommandAboutInfo
       (i18n.translate "xpack.securitySolution.endpointConsoleCommands.release.about"
          "Release the host")
       (doesEndpointSupportCommand "release");
     RenderComponent := ReleaseActionResult;
     meta := gatedMeta;
     exampleUsage := Some ("release --comment " +:+ quoted "release this host");
     exampleInstruction := Some ENTER_OR_ADD_COMMENT_ARG_INSTRUCTION;
     validate := Some CapabilitiesAndPrivilegesValidator;
     mustHaveArgs := None;
     args := [("comment", commentArg)];
     helpGroupLabel := HELP_GROUPS.responseActions.label;
     helpGroupPosition := HELP_GROUPS.responseActions.position;
     helpCommandPosition := 1;
     helpDisabled := Some (Bool.eqb (doesEndpointSupportCommand "release") false);
     helpHidden := Some (negb (getRbacControl "release" endpointPrivileges)) |}.

Definition killProcessCommand : CommandDefinition :=
  {| name := "kill-process";
     about := getCommandAboutInfo
       (i18n.translate "xpack.securitySolution.endpointConsoleCommands.killProcess.about"
          "Kill/terminate a process")
       (doesEndpointSupportCommand "kill-process");
     RenderComponent := KillProcessActionResult;
     meta := gatedMeta;
     exampleUsage :=
       Some ("kill-process --pid 123 --comment " +:+ quoted "kill this process");
     exampleInstruction := Some ENTER_PID_OR_ENTITY_ID_INSTRUCTION;
     validate := Some CapabilitiesAndPrivilegesValidator;
     mustHaveArgs := Some true;
     args :=
       [ ("comment", commentArg);
         ("pid",
          {| Arg.required := false; Arg.allowMultiples := false;
             Arg.exclusiveOr := Some true;
             Arg.about := i18n.translate
               "xpack.securitySolution.endpointConsoleCommands.pid.arg.comment"
               "A PID representing the process to kill";
             Arg.mustHaveValue := None;
             Arg.validate := Some pidValidator |});
         ("entityId",
          {| Arg.required := false; Arg.allowMultiples := false;
             Arg.exclusiveOr := Some true;
             Arg.about := i18n.translate
               "xpack.securitySolution.endpointConsoleCommands.entityId.arg.comment"
               "An entity id representing the process to kill";
             Arg.mustHaveValue := None;
             Arg.validate := Some emptyArgumentValidator |}) ];
     helpGroupLabel := HELP_GROUPS.responseActions.label;
     helpGroupPosition := HELP_GROUPS.responseActions.position;
     helpCommandPosition := 4;
     helpDisabled := Some (Bool.eqb (doesEndpointSupportCommand "kill-process") false);
     helpHidden := Some (negb (getRbacControl "kill-process" endpointPrivileges)) |}.

Definition suspendProcessCommand : CommandDefinition :=
  {| name := "suspend-process";
     about := getCommandAboutInfo
       (i18n.translate "xpack.securitySolution.endpointConsoleCommands.suspendProcess.about"
          "Temporarily suspend a process")
       (doesEndpointSupportCommand "suspend-process");
     RenderComponent := SuspendProcessActionResult;
     meta := gatedMeta;
     exampleUsage :=
       Some ("suspend-process --pid 123 --comment " +:+ quoted "suspend this process");
     exampleInstruction := Some ENTER_PID_OR_ENTITY_ID_INSTRUCTION;
     validate := Some CapabilitiesAndPrivilegesValidator;
     mustHaveArgs := Some true;
     args :=
       [ ("comment", commentArg);
         ("pid",
          {| Arg.required := false; Arg.allowMultiples := false;
             Arg.exclusiveOr := Some true;
             Arg.about := i18n.translate
               "xpack.securitySolution.endpointConsoleCommands.suspendProcess.pid.arg.comment"
               "A PID representing the process to suspend";
             Arg.mustHaveValue := None;
             Arg.validate := Some pidValidator |});
         ("entityId",
          {| Arg.required := false; Arg.allowMultiples := false;
             Arg.exclusiveOr := Some true;
             Arg.about := i18n.translate
               "xpack.securitySolution.endpointConsoleCommands.suspendProcess.entityId.arg.comment"
               "An entity id representing the process to suspend";
             Arg.mustHaveValue := None;
             Arg.validate := Some emptyArgumentValidator |}) ];
     helpGroupLabel := HELP_GROUPS.responseActions.label;
     helpGroupPosition := HELP_GROUPS.responseActions.position;
     helpCommandPosition := 5;
     helpDisabled := Some (Bool.eqb (doesEndpointSupportCommand "suspend-process") false);
     helpHidden := Some (negb (getRbacControl "suspend-process" endpointPrivileges)) |}.

Definition statusCommand : CommandDefinition :=
  {| name := "status";
     about := AboutText
       (i18n.translate "xpack.securitySolution.endpointConsoleCommands.status.about"
          "Show host status information");
     RenderComponent := EndpointStatusActionResult;
     meta := {| endpointId := endpointAgentId; capabilities := None; privileges := None |};
     exampleUsage := None;
     exampleInstruction := None;
     validate := None;
     mustHaveArgs := None;
     args := [];
     helpGroupLabel := HELP_GROUPS.responseActions.label;
     helpGroupPosition := HELP_GROUPS.responseActions.position;
     helpCommandPosition := 2;
     helpDisabled := None;
     helpHidden := None |}.

Definition processesCommand : CommandDefinition :=
  {| name := "processes";
     about := getCommandAboutInfo
       (i18n.translate "xpack.securitySolution.endpointConsoleCommands.processes.about"
          "Show all running processes")
       (doesEndpointSupportCommand "processes");
     RenderComponent := GetProcessesActionResult;
     meta := gatedMeta;
     exampleUsage := Some ("processes --comment " +:+ quoted "get the processes");
     exampleInstruction := Some ENTER_OR_ADD_COMMENT_ARG_INSTRUCTION;
     validate := Some CapabilitiesAndPrivilegesValidator;
     mustHaveArgs := None;
     args := [("comment", commentArg)];
     helpGroupLabel := HELP_GROUPS.responseActions.label;
     helpGroupPosition := HELP_GROUPS.responseActions.position;
     helpCommandPosition := 3;
     helpDisabled := Some (Bool.eqb (doesEndpointSupportCommand "processes") false);
     helpHidden := Some (negb (getRbacControl "processes" endpointPrivileges)) |}.

Definition getFileCommand : CommandDefinition :=
  {| name := "get-file";
     about := getCommandAboutInfo
       (i18n.translate "xpack.securitySolution.endpointConsoleCommands.getFile.about"
          "Retrieve a file from the host")
       (doesEndpointSupportCommand "processes");
     RenderComponent := GetFileActionResult;
     meta := gatedMeta;
     exampleUsage :=
       Some ("get-file --path " +:+ quoted "/full/path/to/file.txt"
             +:+ " --comment " +:+ quoted "Possible malware");
     exampleInstruction := Some ENTER_OR_ADD_COMMENT_ARG_INSTRUCTION;
     validate := Some CapabilitiesAndPrivilegesValidator;
     mustHaveArgs := Some true;
     args :=
       [ ("path",
          {| Arg.required := true; Arg.allowMultiples := false;
             Arg.exclusiveOr := None;
             Arg.about := i18n.translate
               "xpack.securitySolution.endpointConsoleCommands.getFile.pathArgAbout"
               "The full file path to be retrieved";
             Arg.mustHaveValue := None;
             Arg.validate := Some (fun argData => emptyArgumentValidator argData) |});
         ("comment", commentArg) ];
     helpGroupLabel := HELP_GROUPS.responseActions.label;
     helpGroupPosition := HELP_GROUPS.responseActions.position;
     helpCommandPosition := 6;
     helpDisabled := Some (negb (doesEndpointSupportCommand "get-file"));
     helpHidden := Some (negb (getRbacControl "get-file" endpointPrivileges)) |}.

Definition executeCommand : CommandDefinition :=
  {| name := "execute";
     about := getCommandAboutInfo
       (i18n.translate "xpack.securitySolution.endpointConsoleCommands.execute.about"
          "Execute a command on the host")
       (doesEndpointSupportCommand "execute");
     RenderComponent := ExecuteActionResult;
     meta := gatedMeta;
     exampleUsage :=
       Some ("execute --command " +:+ quoted "ls -al" +:+ " --timeout 2s --comment "
             +:+ quoted "Get list of all files");
     exampleInstruction := Some ENTER_OR_ADD_COMMENT_ARG_INSTRUCTION;
     validate := Some CapabilitiesAndPrivilegesValidator;
     mustHaveArgs := Some true;
     args :=
       [ ("command",
          {| Arg.required := true; Arg.allowMultiples := false;
             Arg.exclusiveOr := None;
             Arg.about := i18n.translate
               "xpack.securitySolution.endpointConsoleCommands.execute.args.command.about"
               "The command to execute";
             Arg.mustHaveValue := Some "non-empty-string";
             Arg.validate := None |});
         ("timeout",
          {| Arg.required := false; Arg.allowMultiples := false;
             Arg.exclusiveOr := None;
             Arg.about := i18n.translate
               "xpack.securitySolution.endpointConsoleCommands.execute.args.timeout.about"
               "The timeout in units of time (h for hours, m for minutes, s for seconds) for the endpoint to wait for the script to complete. Example: 37m. If not given, it defaults to 4 hours.";
             Arg.mustHaveValue := Some "non-empty-string";
             Arg.validate := Some executeTimeoutValidator |});
         ("comment", commentArg) ];
     helpGroupLabel := HELP_GROUPS.responseActions.label;
     helpGroupPosition := HELP_GROUPS.responseActions.position;
     helpCommandPosition := 6;
     helpDisabled := Some (negb (doesEndpointSupportCommand "execute"));
     helpHidden := Some (negb (getRbacControl "execute" endpointPrivileges)) |}.

End Descriptors.

(** What a call of the registry builder reaches besides the agent id (a
    string): the flags held by the experimental-features service, the
    array behind [endpointCapabilities] and the object behind
    [endpointPrivileges]. *)
Record Store : Type := {
  experimentalFeatures : ExperimentalFeatures;
  capabilitiesArray : list string;
  privilegesObject : EndpointPrivileges
}.

Definition State (A : Type) : Type := Store -> A * Store.

#[export] Instance State_ret : MRet State := fun A a σ => (a, σ).
#[export] Instance State_bind : MBind State := fun A B k c σ =>
  let '(a, σ') := c σ in k a σ'.

Module ExperimentalFeaturesService.
Definition get : State ExperimentalFeatures := fun σ => (experimentalFeatures σ, σ).
End ExperimentalFeaturesService.

Definition readCapabilities : State (list string) := fun σ => (capabilitiesArray σ, σ).
Definition readPrivileges : State EndpointPrivileges := fun σ => (privilegesObject σ, σ).

(** [consoleCommands] is an array local to the call; [push] on it is
    written as the list with the new element at its end. *)
Definition getEndpointConsoleCommands (endpointAgentId : string)
  : State (list CommandDefinition) :=
  features ← ExperimentalFeaturesService.get;
  let isGetFileEnabled := responseActionGetFileEnabled features in
  features ← ExperimentalFeaturesService.get;
  let isExecuteEnabled := responseActionExecuteEnabled features in
  endpointCapabilities ← readCapabilities;
  endpointPrivileges ← readPrivileges;
  let consoleCommands :=
    [ isolateCommand endpointAgentId endpointCapabilities endpointPrivileges;
      releaseCommand endpointAgentId endpointCapabilities endpointPrivileges;
      killProcessCommand endpointAgentId endpointCapabilities endpointPrivileges;
      suspendProcessCommand endpointAgentId endpointCapabilities endpointPrivileges;
      statusCommand endpointAgentId;
      processesCommand endpointAgentId endpointCapabilities endpointPrivileges ] in
  let consoleCommands :=
    if isGetFileEnabled
    then consoleCommands
           ++ [getFileCommand endpointAgentId endpointCapabilities endpointPrivileges]
    else consoleCommands in
  let consoleCommands :=
    if isExecuteEnabled
    then consoleCommands
           ++ [executeCommand endpointAgentId endpointCapabilities endpointPrivileges]
    else consoleCommands in
  mret consoleCommands.

(** The list a call returns, as a function of what the call reads. *)
Definition consoleCommandsFor (features : ExperimentalFeatures)
    (endpointAgentId : string) (endpointCapabilities : list string)
    (endpointPrivileges : EndpointPrivileges) : list CommandDefinition :=
  (getEndpointConsoleCommands endpointAgentId
     {| experimentalFeatures := features;
        capabilitiesArray := endpointCapabilities;
        privilegesObject := endpointPrivileges |}).1.

(** ** The registry as objects on a heap

    The same function with what the embedding above leaves out: the objects
    a call reads and writes, and the identity of the functions it stores.
    The capability array and the privileges object are objects of the heap,
    passed by location; [consoleCommands] is an array the call allocates
    and pushes to; the arrow function given as the validator of get-file's
    path is a function object allocated by the call that evaluates it,
    while the other validators are functions bound once at module level.
    A command keeps its fields as [CommandDefinition] has them (objects
    and arrays nested in a descriptor are compared by their contents) and,
    beside them, the identity of each function stored in it. A read of a
    location that does not hold the expected kind of object has no result. *)

Module Heap.

(** A location: the index of an object in the heap. *)
Definition loc : Type := nat.

(** The identity of a function: one bound at module level, by its name, or
    the function object an arrow expression allocated. *)
Inductive FunctionId : Type :=
  | ModuleFunction (name : string)
  | ArrowFunction (l : loc).

(** A command in an array: its fields, the identity of the function in
    [validate], and the identity of the function in the [validate] of each
    argument that has one. *)
Record CommandObject : Type := {
  definition : CommandDefinition;
  validateId : option FunctionId;
  argValidateIds : list (string * FunctionId)
}.

(** What a location holds. *)
Inductive Object : Type :=
  | StringArray (elements : list string)
  | PrivilegesObject (granted : EndpointPrivileges)
  | CommandArray (elements : list CommandObject)
  | FunctionObject (code : ParsedArgData -> ValidationResult).

(** The flags of the experimental-features service, and the heap. *)
Record State : Type := {
  experimentalFeatures : ExperimentalFeatures;
  objects : list Object
}.

(** A computation on the state; [None] is a read that finds no such
    object. *)
Definition M (A : Type) : Type := State -> option (A * State).

#[export] Instance M_ret : MRet M := fun A a σ => Some (a, σ).
#[export] Instance M_bind : MBind M := fun A B k c σ =>
  match c σ with
  | Some (a, σ') => k a σ'
  | None => None
  end.

Module ExperimentalFeaturesService.
Definition get : M ExperimentalFeatures := fun σ => Some (experimentalFeatures σ, σ).
End ExperimentalFeaturesService.

Definition readStrings (l : loc) : M (list string) := fun σ =>
  match objects σ !! l with
  | Some (StringArray elements) => Some (elements, σ)
  | _ => None
  end.

Definition readPrivileges (l : loc) : M EndpointPrivileges := fun σ =>
  match objects σ !! l with
  | Some (PrivilegesObject granted) => Some (granted, σ)
  | _ => None
  end.

(** A new object goes to the first free location. *)
Definition alloc (o : Object) : M loc := fun σ =>
  Some (length (objects σ),
        {| experimentalFeatures := experimentalFeatures σ;
           objects := objects σ ++ [o] |}).

(** [Array.prototype.push] on the array of commands at [l]. *)
Definition push (l : loc) (c : CommandObject) : M unit := fun σ =>
  match objects σ !! l with
  | Some (CommandArray elements) =>
      Some (tt, {| experimentalFeatures := experimentalFeatures σ;
                   objects := <[l := CommandArray (elements ++ [c])]> (objects σ) |})
  | _ => None
  end.

(** The object literal of a command: [validate], where present, is the
    module-level [capabilitiesAndPrivilegesValidator]. *)
Definition object (d : CommandDefinition) (ids : list (string * FunctionId))
  : CommandObject :=
  {| definition := d;
     validateId :=
       match validate d with
       | Some CapabilitiesAndPrivilegesValidator =>
           Some (ModuleFunction "capabilitiesAndPrivilegesValidator")
       | None => None
       end;
     argValidateIds := ids |}.

(** The validators of kill-process and of suspend-process. *)
Definition processValidators : list (string * FunctionId) :=
  [("pid", ModuleFunction "pidValidator");
   ("entityId", ModuleFunction "emptyArgumentValidator")].

Definition getEndpointConsoleCommands (endpointAgentId : string)
    (endpointCapabilities endpointPrivileges : loc) : M loc :=
  features ← ExperimentalFeaturesService.get;
  let isGetFileEnabled := responseActionGetFileEnabled features in
  features ← ExperimentalFeaturesService.get;
  let isExecuteEnabled := responseActionExecuteEnabled features in
  capabilities ← readStrings endpointCapabilities;
  privileges ← readPrivileges endpointPrivileges;
  consoleCommands ← alloc (CommandArray
    [ object (isolateCommand endpointAgentId capabilities privileges) [];
      object (releaseCommand endpointAgentId capabilities privileges) [];
      object (killProcessCommand endpointAgentId capabilities privileges)
        processValidators;
      object (suspendProcessCommand endpointAgentId capabilities privileges)
        processValidators;
      object (statusCommand endpointAgentId) [];
      object (processesCommand endpointAgentId capabilities privileges) [] ]);
  _ ← (if isGetFileEnabled
       then
         pathValidate ← alloc (FunctionObject
                                 (fun argData => emptyArgumentValidator argData));
         push consoleCommands
           (object (getFileCommand endpointAgentId capabilities privileges)
              [("path", ArrowFunction pathValidate)])
       else mret tt : M unit);
  _ ← (if isExecuteEnabled
       then
         push consoleCommands
           (object (executeCommand endpointAgentId capabilities privileges)
              [("timeout", ModuleFunction "executeTimeoutValidator")])
       else mret tt : M unit);
  mret consoleCommands.

(** The commands that a call leaves in the array it returns, [pathValidate]
    being where the call allocated the validator of get-file's path. *)
Definition built (features : ExperimentalFeatures) (endpointAgentId : string)
    (capabilities : list string) (privileges : EndpointPrivileges)
    (pathValidate : loc) : list CommandObject :=
  [ object (isolateCommand endpointAgentId capabilities privileges) [];
    object (releaseCommand endpointAgentId capabilities privileges) [];
    object (killProcessCommand endpointAgentId capabilities privileges)
      processValidators;
    object (suspendProcessCommand endpointAgentId capabilities privileges)
      processValidators;
    object (statusCommand endpointAgentId) [];
    object (processesCommand endpointAgentId capabilities privileges) [] ]
  ++ (if responseActionGetFileEnabled features
      then [object (getFileCommand endpointAgentId capabilities privileges)
              [("path", ArrowFunction pathValidate)]]
      else [])
  ++ (if responseActionExecuteEnabled features
      then [object (executeCommand endpointAgentId capabilities privileges)
              [("timeout", ModuleFunction "executeTimeoutValidator")]]
      else []).

(** Two identities name the same module function, or two function objects
    of [h] with the same code. *)
Definition sameFunction (h : list Object) (f g : FunctionId) : Prop :=
  match f, g with
  | ModuleFunction a, ModuleFunction b => a = b
  | ArrowFunction l1, ArrowFunction l2 =>
      exists code : ParsedArgData -> ValidationResult,
        h !! l1 = Some (FunctionObject code) /\ h !! l2 = Some (FunctionObject code)
  | _, _ => False
  end.

(** Two commands have the same fields, and function fields that compute
    the same. *)
Definition sameCommand (h : list Object) (a b : CommandObject) : Prop :=
  definition a = definition b
  /\ validateId a = validateId b
  /\ Forall2 (fun x y => x.1 = y.1 /\ sameFunction h x.2 y.2)
       (argValidateIds a) (argValidateIds b).

End Heap.

(** ** Argument validation *)

(** Modelled from the spec: the kinds of failure of [validateArguments],
    one per rule the spec lists; the spec leaves the message texts open. *)
Inductive ArgumentError : Type :=
  | MissingRequiredArgument (argName : string)
  | ExclusiveOrArguments (argNames : list string)
  | ArgumentUsedMoreThanOnce (argName : string)
  | InvalidArgument (argName message : string).

(** Modelled from the spec: [Ok | Err(message)]. *)
Inductive ArgumentsResult : Type :=
  | ArgumentsOk
  | ArgumentsErr (e : ArgumentError).

(** Modelled from the spec: the value supplied for [argName], if any. *)
Fixpoint suppliedValue (supplied : list (string * ParsedArgData)) (argName : string)
  : option ParsedArgData :=
  match supplied with
  | [] => None
  | (k, d) :: r => if String.eqb k argName then Some d else suppliedValue r argName
  end.

(** Modelled from the spec: whether [argName] was supplied. *)
Definition isSupplied (supplied : list (string * ParsedArgData)) (argName : string) : bool :=
  match suppliedValue supplied argName with
  | Some _ => true
  | None => false
  end.

(** Modelled from the spec: the definition of [argName] in [args]. *)
Fixpoint lookupArg (schema : list (string * Arg.t)) (argName : string) : option Arg.t :=
  match schema with
  | [] => None
  | (k, a) :: r => if String.eqb k argName then Some a else lookupArg r argName
  end.

(** Modelled from the spec: the exclusive-or group, the arguments declared
    [exclusiveOr: true]. *)
Definition exclusiveOrArgs (schema : list (string * Arg.t)) : list string :=
  (filter (fun e => Arg.exclusiveOr e.2 = Some true) schema).*1.

(** Modelled from the spec: required arguments must be present and
    non-empty after trimming. *)
Fixpoint checkRequired (schema : list (string * Arg.t))
    (supplied : list (string * ParsedArgData)) : ArgumentsResult :=
  match schema with
  | [] => ArgumentsOk
  | (k, a) :: r =>
      if Arg.required a then
        match suppliedValue supplied k with
        | Some d =>
            match emptyArgumentValidator d with
            | VTrue => checkRequired r supplied
            | VMessage _ => ArgumentsErr (MissingRequiredArgument k)
            end
        | None => ArgumentsErr (MissingRequiredArgument k)
        end
      else checkRequired r supplied
  end.

(** Modelled from the spec: exactly one argument of an exclusive-or group
    is supplied. *)
Definition checkExclusiveOr (schema : list (string * Arg.t))
    (supplied : list (string * ParsedArgData)) : ArgumentsResult :=
  match exclusiveOrArgs schema with
  | [] => ArgumentsOk
  | group =>
      if bool_decide (length (filter (fun k => isSupplied supplied k = true) group) = 1)
      then ArgumentsOk
      else ArgumentsErr (ExclusiveOrArguments group)
  end.

(** Modelled from the spec: multiplicity and the per-argument validators,
    argument by argument, the first failure winning. *)
Fixpoint checkEach (schema : list (string * Arg.t))
    (supplied : list (string * ParsedArgData)) : ArgumentsResult :=
  match supplied with
  | [] => ArgumentsOk
  | (k, d) :: r =>
      match lookupArg schema k with
      | None => checkEach schema r
      | Some a =>
          if negb (Arg.allowMultiples a) && bool_decide (1 < length d)
          then ArgumentsErr (ArgumentUsedMoreThanOnce k)
          else
            match Arg.validate a with
            | None => checkEach schema r
            | Some validator =>
                match validator d with
                | VTrue => checkEach schema r
                | VMessage message => ArgumentsErr (InvalidArgument k message)
                end
            end
      end
  end.

(** Modelled from the spec: the console's argument check lives in
    [../../console], which is not among the sources. The spec's
    [validateArguments(command, suppliedArgs)] enforces required arguments
    (present and non-empty after trimming), exclusive-or groups (exactly one
    argument of the group supplied), multiplicity, and the per-argument
    validators, the first failure winning. The arguments supplied are kept
    in the order entered. *)
Definition validateArguments (definition : CommandDefinition)
    (supplied : list (string * ParsedArgData)) : ArgumentsResult :=
  match checkRequired (args definition) supplied with
  | ArgumentsErr e => ArgumentsErr e
  | ArgumentsOk =>
      match checkExclusiveOr (args definition) supplied with
      | ArgumentsErr e => ArgumentsErr e
      | ArgumentsOk => checkEach (args definition) supplied
      end
  end.

(** Values supplied to kill-process that are acceptable: at most one value per argument, a
    PID that [pidValidator] accepts, an entity id that
    [emptyArgumentValidator] accepts. *)
Definition validKillProcessValue (e : string * ParsedArgData) : Prop :=
  length e.2 <= 1
  /\ (e.1 = "pid" -> pidValidator e.2 = VTrue)
  /\ (e.1 = "entityId" -> emptyArgumentValidator e.2 = VTrue).

(** ** Predicates on strings used to state properties *)

(** Every code unit of [s] is white space (so also the empty string). *)
Fixpoint isBlank (s : string) : bool :=
  match s with
  | EmptyString => true
  | String c r => JS.isWhiteSpace c && isBlank r
  end.

(** [s] holds a comma. *)
Fixpoint hasComma (s : string) : bool :=
  match s with
  | EmptyString => false
  | String c r => Ascii.eqb c "," || hasComma r
  end.

(** ** Sample inputs *)

Definition noPrivileges : EndpointPrivileges :=
  {| canIsolateHost := false; canUnIsolateHost := false; canKillProcess := false;
     canSuspendProcess := false; canGetRunningProcesses := false;
     canWriteFileOperations := false; canWriteExecuteOperations := false |}.

Definition allPrivileges : EndpointPrivileges :=
  {| canIsolateHost := true; canUnIsolateHost := true; canKillProcess := true;
     canSuspendProcess := true; canGetRunningProcesses := true;
     canWriteFileOperations := true; canWriteExecuteOperations := true |}.

Definition allFeatures : ExperimentalFeatures :=
  {| responseActionGetFileEnabled := true; responseActionExecuteEnabled := true |}.

Definition sampleHeap : Heap.State :=
  {| Heap.experimentalFeatures := allFeatures;
     Heap.objects := [Heap.StringArray ["isolation"; "get_file"];
                      Heap.PrivilegesObject allPrivileges] |}.

(** * Properties *)

(** ** The command table *)

Lemma commandTable_lookup (commandName : string) (entry : CapabilityAndPrivilege) :
  commandToCapabilitiesPrivilegesMap !! commandName = Some entry ->
  (commandName, entry) ∈ commandTable.
Proof. apply elem_of_list_to_map_2. Qed.

Lemma commandTable_capability_truthy (commandName : string)
    (entry : CapabilityAndPrivilege) :
  commandToCapabilitiesPrivilegesMap !! commandName = Some entry ->
  truthy (Some (capability entry)) = true.
Proof.
  intros H. apply commandTable_lookup in H. unfold commandTable in H.
  repeat (apply elem_of_cons in H as [H | H]; [injection H as -> ->; reflexivity |]).
  by apply elem_of_nil in H.
Qed.

Lemma lookup_status : commandToCapabilitiesPrivilegesMap !! "status" = None.
Proof. reflexivity. Qed.

Lemma doesEndpointSupportCommand_table (endpointCapabilities : list string)
    (commandName : string) (entry : CapabilityAndPrivilege) :
  commandToCapabilitiesPrivilegesMap !! commandName = Some entry ->
  doesEndpointSupportCommand endpointCapabilities commandName
  = includes endpointCapabilities (capability entry).
Proof.
  intros H. pose proof (commandTable_capability_truthy _ _ H) as Ht.
  unfold doesEndpointSupportCommand. rewrite H. simpl in *.
  destruct (capability entry); [discriminate | reflexivity].
Qed.

Lemma getRbacControl_table (commandName : string) (entry : CapabilityAndPrivilege)
    (endpointPrivileges : EndpointPrivileges) :
  commandToCapabilitiesPrivilegesMap !! commandName = Some entry ->
  getRbacControl commandName endpointPrivileges = privilege entry endpointPrivileges.
Proof. intros H. unfold getRbacControl. by rewrite H. Qed.

Lemma append_empty_r (s : string) : s +:+ EmptyString = s.
Proof.
  induction s as [| c s IH]; [reflexivity |].
  change (String c (s +:+ EmptyString) = String c s). by rewrite IH.
Qed.

Lemma append_empty_l (s : string) : EmptyString +:+ s = s.
Proof. reflexivity. Qed.

Lemma nonempty_length (s : string) : s <> EmptyString -> bool_decide (0 < String.length s) = true.
Proof.
  intros H. destruct s; [congruence |]. apply bool_decide_eq_true. simpl. lia.
Qed.

Lemma nonempty_append_length (s t : string) :
  s <> EmptyString -> bool_decide (0 < String.length (s +:+ t)) = true.
Proof.
  intros H. destruct s as [| c s]; [congruence |]. apply bool_decide_eq_true.
  change (0 < S (String.length (s +:+ t))). lia.
Qed.

(** ** The gate *)

Section GateProperties.

Variable UPGRADE_ENDPOINT_FOR_RESPONDER : string.
Variable INSUFFICIENT_PRIVILEGES_FOR_COMMAND : string.

Local Abbreviation authorize :=
  (capabilitiesAndPrivilegesValidator
     UPGRADE_ENDPOINT_FOR_RESPONDER INSUFFICIENT_PRIVILEGES_FOR_COMMAND).

(** What the validator returns for a command of the table whose [meta]
    holds a capability array and a privileges object. *)
Lemma capabilitiesAndPrivilegesValidator_table (command : Command)
    (entry : CapabilityAndPrivilege) (endpointCapabilities : list string)
    (endpointPrivileges : EndpointPrivileges) :
  commandToCapabilitiesPrivilegesMap !! name (commandDefinition command) = Some entry ->
  capabilities (meta (commandDefinition command)) = Some endpointCapabilities ->
  privileges (meta (commandDefinition command)) = Some endpointPrivileges ->
  authorize command =
    let errorMessage :=
      (if includes endpointCapabilities (capability entry) then EmptyString
       else UPGRADE_ENDPOINT_FOR_RESPONDER)
      +:+ (if privilege entry endpointPrivileges then EmptyString
           else INSUFFICIENT_PRIVILEGES_FOR_COMMAND) in
    if bool_decide (0 < String.length errorMessage)
    then Normal (VMessage errorMessage) else Normal VTrue.
Proof.
  intros Hentry Hcaps Hprivs.
  pose proof (commandTable_capability_truthy _ _ Hentry) as Ht.
  unfold capabilitiesAndPrivilegesValidator, getRbacControlOfMeta, getRbacControl.
  rewrite Hentry, Hcaps, Hprivs. simpl in *.
  destruct (capability entry) as [| c r] eqn:Hc; [discriminate |].
  destruct (includes endpointCapabilities (String c r));
    destruct (privilege entry endpointPrivileges); simpl;
    rewrite ?append_empty_l, ?append_empty_r; reflexivity.
Qed.

(** A command that the table does not know is refused with both messages,
    whatever its [meta] holds. *)
Lemma capabilitiesAndPrivilegesValidator_unknown (command : Command) :
  commandToCapabilitiesPrivilegesMap !! name (commandDefinition command) = None ->
  UPGRADE_ENDPOINT_FOR_RESPONDER <> EmptyString ->
  authorize command
  = Normal (VMessage (UPGRADE_ENDPOINT_FOR_RESPONDER
                      +:+ INSUFFICIENT_PRIVILEGES_FOR_COMMAND)).
Proof.
  intros Hnone Hne.
  unfold capabilitiesAndPrivilegesValidator, getRbacControlOfMeta, getRbacControl.
  rewrite Hnone. destruct (privileges (meta (commandDefinition command)));
    simpl; rewrite append_empty_l, (nonempty_append_length _ _ Hne); reflexivity.
Qed.

(** C1. A command whose required capability is in the endpoint's capability
    set and whose required privilege is false is refused with the
    insufficient-privilege message alone: the upgrade message is not part
    of the error. *)
Theorem insufficient_privilege_only (command : Command)
    (entry : CapabilityAndPrivilege) (endpointCapabilities : list string)
    (endpointPrivileges : EndpointPrivileges) :
  commandToCapabilitiesPrivilegesMap !! name (commandDefinition command) = Some entry ->
  capabilities (meta (commandDefinition command)) = Some endpointCapabilities ->
  privileges (meta (commandDefinition command)) = Some endpointPrivileges ->
  includes endpointCapabilities (capability entry) = true ->
  privilege entry endpointPrivileges = false ->
  INSUFFICIENT_PRIVILEGES_FOR_COMMAND <> EmptyString ->
  authorize command = Normal (VMessage INSUFFICIENT_PRIVILEGES_FOR_COMMAND).
Proof.
  intros Hentry Hcaps Hprivs Hin Hpriv Hne.
  rewrite (capabilitiesAndPrivilegesValidator_table _ _ _ _ Hentry Hcaps Hprivs).
  rewrite Hin, Hpriv. cbv zeta. rewrite append_empty_l. by rewrite nonempty_length.
Qed.

(** C2. A command whose required capability is missing from the endpoint's
    capability set is refused with an error that starts with the upgrade
    message, whatever the privilege; when the privilege is false too the
    error is the upgrade message followed by the insufficient-privilege
    message, and when it is true the error is the upgrade message alone. *)
Theorem missing_capability_upgrade_required (command : Command)
    (entry : CapabilityAndPrivilege) (endpointCapabilities : list string)
    (endpointPrivileges : EndpointPrivileges) :
  commandToCapabilitiesPrivilegesMap !! name (commandDefinition command) = Some entry ->
  capabilities (meta (commandDefinition command)) = Some endpointCapabilities ->
  privileges (meta (commandDefinition command)) = Some endpointPrivileges ->
  includes endpointCapabilities (capability entry) = false ->
  UPGRADE_ENDPOINT_FOR_RESPONDER <> EmptyString ->
  (exists rest : string,
      authorize command
      = Normal (VMessage (UPGRADE_ENDPOINT_FOR_RESPONDER +:+ rest)))
  /\ (privilege entry endpointPrivileges = false ->
      authorize command
      = Normal (VMessage (UPGRADE_ENDPOINT_FOR_RESPONDER
                          +:+ INSUFFICIENT_PRIVILEGES_FOR_COMMAND)))
  /\ (privilege entry endpointPrivileges = true ->
      authorize command = Normal (VMessage UPGRADE_ENDPOINT_FOR_RESPONDER)).
Proof.
  intros Hentry Hcaps Hprivs Hin Hne.
  rewrite (capabilitiesAndPrivilegesValidator_table _ _ _ _ Hentry Hcaps Hprivs).
  rewrite Hin. cbv zeta. rewrite (nonempty_append_length _ _ Hne).
  split; [eexists; reflexivity |].
  split; intros ->; [reflexivity | by rewrite append_empty_r].
Qed.

End GateProperties.

Lemma insufficient_privilege_only_witness :
  capabilitiesAndPrivilegesValidator "upgrade required" "insufficient privileges"
    {| commandDefinition := isolateCommand "agent-1" ["isolation"] noPrivileges |}
  = Normal (VMessage "insufficient privileges").
Proof.
  apply (insufficient_privilege_only "upgrade required" "insufficient privileges"
           {| commandDefinition := isolateCommand "agent-1" ["isolation"] noPrivileges |}
           {| capability := "isolation"; privilege := canIsolateHost |}
           ["isolation"] noPrivileges);
    [reflexivity | reflexivity | reflexivity | reflexivity | reflexivity | discriminate].
Defined.

Lemma missing_capability_upgrade_required_witness :
  capabilitiesAndPrivilegesValidator "upgrade required" "insufficient privileges"
    {| commandDefinition := killProcessCommand "agent-1" ["isolation"] noPrivileges |}
  = Normal (VMessage "upgrade requiredinsufficient privileges").
Proof.
  apply (missing_capability_upgrade_required "upgrade required" "insufficient privileges"
           {| commandDefinition := killProcessCommand "agent-1" ["isolation"] noPrivileges |}
           {| capability := "kill_process"; privilege := canKillProcess |}
           ["isolation"] noPrivileges);
    [reflexivity | reflexivity | reflexivity | reflexivity | discriminate | reflexivity].
Defined.

(** ** The registry *)

Lemma elem_of_optional {A : Type} (b : bool) (x d : A) :
  d ∈ (if b then [x] else []) <-> b = true /\ d = x.
Proof.
  destruct b; rewrite ?elem_of_cons, ?elem_of_nil; [tauto |].
  split; [tauto | intros [H _]; discriminate H].
Qed.

Section RegistryProperties.

Variable features : ExperimentalFeatures.
Variable endpointAgentId : string.
Variable endpointCapabilities : list string.
Variable endpointPrivileges : EndpointPrivileges.

Local Abbreviation gated make :=
  (make endpointAgentId endpointCapabilities endpointPrivileges).

Lemma consoleCommandsFor_unfold :
  consoleCommandsFor features endpointAgentId endpointCapabilities endpointPrivileges
  = [ gated isolateCommand; gated releaseCommand; gated killProcessCommand;
      gated suspendProcessCommand; statusCommand endpointAgentId;
      gated processesCommand ]
    ++ (if responseActionGetFileEnabled features then [gated getFileCommand] else [])
    ++ (if responseActionExecuteEnabled features then [gated executeCommand] else []).
Proof. destruct features as [[] []]; reflexivity. Qed.

(** Every descriptor of the list is one of the eight of the source; the two
    optional ones appear under their flag only. *)
Lemma consoleCommandsFor_elem (d : CommandDefinition) :
  d ∈ consoleCommandsFor features endpointAgentId endpointCapabilities endpointPrivileges <->
  d = gated isolateCommand \/ d = gated releaseCommand \/ d = gated killProcessCommand
  \/ d = gated suspendProcessCommand \/ d = statusCommand endpointAgentId
  \/ d = gated processesCommand
  \/ (responseActionGetFileEnabled features = true /\ d = gated getFileCommand)
  \/ (responseActionExecuteEnabled features = true /\ d = gated executeCommand).
Proof.
  rewrite consoleCommandsFor_unfold.
  rewrite !elem_of_app, !elem_of_cons, elem_of_nil, !elem_of_optional. tauto.
Qed.

End RegistryProperties.

(** The descriptors behind the gate take their two flags from the table
    entry of their own name. *)
Lemma gated_flags (features : ExperimentalFeatures) (endpointAgentId : string)
    (endpointCapabilities : list string) (endpointPrivileges : EndpointPrivileges)
    (d : CommandDefinition) (entry : CapabilityAndPrivilege) :
  d ∈ consoleCommandsFor features endpointAgentId endpointCapabilities endpointPrivileges ->
  commandToCapabilitiesPrivilegesMap !! name d = Some entry ->
  helpDisabled d = Some (negb (includes endpointCapabilities (capability entry)))
  /\ helpHidden d = Some (negb (privilege entry endpointPrivileges)).
Proof.
  intros Hd Hentry. apply consoleCommandsFor_elem in Hd.
  destruct Hd as [-> | [-> | [-> | [-> | [-> | [-> | [[_ ->] | [_ ->]]]]]]]];
    cbn [name helpDisabled helpHidden isolateCommand releaseCommand killProcessCommand
         suspendProcessCommand statusCommand processesCommand getFileCommand
         executeCommand] in *;
    try (rewrite lookup_status in Hentry; discriminate);
    rewrite (doesEndpointSupportCommand_table _ _ _ Hentry),
      (getRbacControl_table _ _ _ Hentry);
    by destruct (includes endpointCapabilities (capability entry)).
Qed.

(** They store the capability array and the privileges object in their
    [meta] and are validated by the gate, so the gate finds what it reads. *)
Lemma gated_meta (features : ExperimentalFeatures) (endpointAgentId : string)
    (endpointCapabilities : list string) (endpointPrivileges : EndpointPrivileges)
    (d : CommandDefinition) (entry : CapabilityAndPrivilege) :
  d ∈ consoleCommandsFor features endpointAgentId endpointCapabilities endpointPrivileges ->
  commandToCapabilitiesPrivilegesMap !! name d = Some entry ->
  meta d = gatedMeta endpointAgentId endpointCapabilities endpointPrivileges
  /\ validate d = Some CapabilitiesAndPrivilegesValidator.
Proof.
  intros Hd Hentry. apply consoleCommandsFor_elem in Hd.
  destruct Hd as [-> | [-> | [-> | [-> | [-> | [-> | [[_ ->] | [_ ->]]]]]]]];
    try (split; reflexivity).
  cbn [name statusCommand] in Hentry. rewrite lookup_status in Hentry. discriminate.
Qed.

(** The gate on a command of the list: the upgrade message when the
    capability is missing, then the insufficient-privilege message when the
    privilege is denied, and [true] when neither applies. *)
Lemma registry_command_gate (UPGRADE_ENDPOINT_FOR_RESPONDER
    INSUFFICIENT_PRIVILEGES_FOR_COMMAND : string)
    (features : ExperimentalFeatures) (endpointAgentId : string)
    (endpointCapabilities : list string) (endpointPrivileges : EndpointPrivileges)
    (d : CommandDefinition) (entry : CapabilityAndPrivilege) :
  d ∈ consoleCommandsFor features endpointAgentId endpointCapabilities endpointPrivileges ->
  commandToCapabilitiesPrivilegesMap !! name d = Some entry ->
  UPGRADE_ENDPOINT_FOR_RESPONDER <> EmptyString ->
  INSUFFICIENT_PRIVILEGES_FOR_COMMAND <> EmptyString ->
  runValidate UPGRADE_ENDPOINT_FOR_RESPONDER INSUFFICIENT_PRIVILEGES_FOR_COMMAND
    CapabilitiesAndPrivilegesValidator {| commandDefinition := d |}
  = match includes endpointCapabilities (capability entry),
          privilege entry endpointPrivileges with
    | true, true => Normal VTrue
    | true, false => Normal (VMessage INSUFFICIENT_PRIVILEGES_FOR_COMMAND)
    | false, true => Normal (VMessage UPGRADE_ENDPOINT_FOR_RESPONDER)
    | false, false =>
        Normal (VMessage (UPGRADE_ENDPOINT_FOR_RESPONDER
                          +:+ INSUFFICIENT_PRIVILEGES_FOR_COMMAND))
    end.
Proof.
  intros Hd Hentry Hup Hins.
  destruct (gated_meta _ _ _ _ _ _ Hd Hentry) as [Hmeta _].
  cbn [runValidate].
  rewrite (capabilitiesAndPrivilegesValidator_table _ _
             {| commandDefinition := d |} entry endpointCapabilities endpointPrivileges);
    [| exact Hentry | cbn [commandDefinition]; by rewrite Hmeta
     | cbn [commandDefinition]; by rewrite Hmeta].
  cbv zeta.
  destruct (includes endpointCapabilities (capability entry)),
    (privilege entry endpointPrivileges);
    rewrite ?append_empty_l, ?append_empty_r, ?nonempty_length,
      ?nonempty_append_length by assumption; reflexivity.
Qed.

Lemma consoleCommandsFor_names (features : ExperimentalFeatures)
    (endpointAgentId : string) (endpointCapabilities : list string)
    (endpointPrivileges : EndpointPrivileges) :
  name <$> consoleCommandsFor features endpointAgentId endpointCapabilities
             endpointPrivileges
  = ["isolate"; "release"; "kill-process"; "suspend-process"; "status"; "processes"]
    ++ (if responseActionGetFileEnabled features then ["get-file"] else [])
    ++ (if responseActionExecuteEnabled features then ["execute"] else []).
Proof.
  rewrite consoleCommandsFor_unfold.
  destruct (responseActionGetFileEnabled features),
    (responseActionExecuteEnabled features); reflexivity.
Qed.

(** C7. The list holds isolate, release, kill-process, suspend-process,
    status and processes in this order, then get-file exactly when
    [responseActionGetFileEnabled] is set, then execute exactly when
    [responseActionExecuteEnabled] is set. *)
Theorem command_names_in_order (features : ExperimentalFeatures)
    (endpointAgentId : string) (endpointCapabilities : list string)
    (endpointPrivileges : EndpointPrivileges) :
  name <$> consoleCommandsFor features endpointAgentId endpointCapabilities
             endpointPrivileges
  = ["isolate"; "release"; "kill-process"; "suspend-process"; "status"; "processes"]
    ++ (if responseActionGetFileEnabled features then ["get-file"] else [])
    ++ (if responseActionExecuteEnabled features then ["execute"] else []).
Proof. apply consoleCommandsFor_names. Qed.

(** C3. A command of the list whose required capability the endpoint lacks
    is marked disabled; it is hidden exactly when its privilege is denied,
    so with the privilege granted it stays visible; and it is not removed:
    the names in the list are the same for every capability set and every
    privilege set. *)
Theorem unsupported_command_disabled_not_removed (features : ExperimentalFeatures)
    (endpointAgentId : string) (endpointCapabilities : list string)
    (endpointPrivileges : EndpointPrivileges)
    (d : CommandDefinition) (entry : CapabilityAndPrivilege) :
  d ∈ consoleCommandsFor features endpointAgentId endpointCapabilities endpointPrivileges ->
  commandToCapabilitiesPrivilegesMap !! name d = Some entry ->
  includes endpointCapabilities (capability entry) = false ->
  helpDisabled d = Some true
  /\ (privilege entry endpointPrivileges = true -> helpHidden d = Some false)
  /\ (privilege entry endpointPrivileges = false -> helpHidden d = Some true)
  /\ (forall (capabilities' : list string) (privileges' : EndpointPrivileges),
        name <$> consoleCommandsFor features endpointAgentId capabilities' privileges'
        = name <$> consoleCommandsFor features endpointAgentId endpointCapabilities
                     endpointPrivileges).
Proof.
  intros Hd Hentry Hin.
  destruct (gated_flags _ _ _ _ _ _ Hd Hentry) as [Hdisabled Hhidden].
  rewrite Hdisabled, Hhidden, Hin.
  repeat split; try (intros ->; reflexivity).
  intros capabilities' privileges'. by rewrite !consoleCommandsFor_names.
Qed.

Lemma unsupported_command_disabled_not_removed_witness :
  helpDisabled (killProcessCommand "agent-1" ["isolation"] allPrivileges) = Some true
  /\ helpHidden (killProcessCommand "agent-1" ["isolation"] allPrivileges) = Some false.
Proof.
  destruct (unsupported_command_disabled_not_removed allFeatures "agent-1"
              ["isolation"] allPrivileges
              (killProcessCommand "agent-1" ["isolation"] allPrivileges)
              {| capability := "kill_process"; privilege := canKillProcess |})
    as (Hdisabled & Hvisible & _ & _).
  - apply consoleCommandsFor_elem. do 2 right. left. reflexivity.
  - reflexivity.
  - reflexivity.
  - split; [exact Hdisabled | apply Hvisible; reflexivity].
Defined.

(** The list a call returns depends on the store through the three values
    read from it, as [consoleCommandsFor] has them. *)
Lemma getEndpointConsoleCommands_result (endpointAgentId : string) (σ : Store) :
  (getEndpointConsoleCommands endpointAgentId σ).1
  = consoleCommandsFor (experimentalFeatures σ) endpointAgentId (capabilitiesArray σ)
      (privilegesObject σ).
Proof. by destruct σ. Qed.

Lemma lookup_at_end {A : Type} (h t : list A) (x : A) :
  (h ++ x :: t) !! length h = Some x.
Proof. by apply list_lookup_middle. Qed.

Lemma lookup_after_end {A : Type} (h t : list A) (x y : A) :
  (h ++ x :: y :: t) !! S (length h) = Some y.
Proof.
  change (h ++ x :: y :: t) with (h ++ [x] ++ y :: t). rewrite app_assoc.
  apply list_lookup_middle. rewrite length_app. cbn. lia.
Qed.

Lemma insert_at_end {A : Type} (h t : list A) (x y : A) :
  <[length h := y]> (h ++ x :: t) = h ++ y :: t.
Proof.
  induction h as [| a h IH]; [reflexivity |].
  change (a :: <[length h := y]> (h ++ x :: t) = a :: h ++ y :: t). by rewrite IH.
Qed.

(** What a call does on a heap that holds the two input objects: it
    returns the next free location, where it leaves the array of the
    commands, followed by the function object of get-file's path validator
    when get-file is enabled; it writes nowhere else. *)
Lemma getEndpointConsoleCommands_run (σ : Heap.State) (endpointAgentId : string)
    (endpointCapabilities endpointPrivileges : Heap.loc)
    (capabilities : list string) (privileges : EndpointPrivileges) :
  Heap.objects σ !! endpointCapabilities = Some (Heap.StringArray capabilities) ->
  Heap.objects σ !! endpointPrivileges = Some (Heap.PrivilegesObject privileges) ->
  Heap.getEndpointConsoleCommands endpointAgentId endpointCapabilities
    endpointPrivileges σ
  = Some (length (Heap.objects σ),
          {| Heap.experimentalFeatures := Heap.experimentalFeatures σ;
             Heap.objects :=
               Heap.objects σ
               ++ Heap.CommandArray
                    (Heap.built (Heap.experimentalFeatures σ) endpointAgentId
                       capabilities privileges (S (length (Heap.objects σ))))
                  :: (if responseActionGetFileEnabled (Heap.experimentalFeatures σ)
                      then [Heap.FunctionObject
                              (fun argData => emptyArgumentValidator argData)]
                      else []) |}).
Proof.
  intros Hcaps Hprivs. destruct σ as [[getFile execute] h].
  cbn [Heap.objects Heap.experimentalFeatures] in *.
  unfold Heap.getEndpointConsoleCommands, Heap.ExperimentalFeaturesService.get,
    Heap.readStrings, Heap.readPrivileges, Heap.alloc, Heap.push, Heap.built,
    mbind, mret, Heap.M_bind, Heap.M_ret.
  cbn [Heap.objects Heap.experimentalFeatures responseActionGetFileEnabled
       responseActionExecuteEnabled].
  rewrite Hcaps. cbn [Heap.objects Heap.experimentalFeatures]. rewrite Hprivs.
  cbn [Heap.objects Heap.experimentalFeatures].
  destruct getFile, execute; cbn [Heap.objects Heap.experimentalFeatures];
    rewrite <- ?app_assoc; cbn [app];
    repeat (rewrite ?lookup_at_end, ?insert_at_end;
            cbn [Heap.objects Heap.experimentalFeatures app]);
    rewrite ?length_app, ?Nat.add_1_r; reflexivity.
Qed.

Lemma built_definitions (features : ExperimentalFeatures) (endpointAgentId : string)
    (capabilities : list string) (privileges : EndpointPrivileges)
    (pathValidate : Heap.loc) :
  Heap.definition
    <$> Heap.built features endpointAgentId capabilities privileges pathValidate
  = consoleCommandsFor features endpointAgentId capabilities privileges.
Proof.
  rewrite consoleCommandsFor_unfold. unfold Heap.built.
  destruct (responseActionGetFileEnabled features),
    (responseActionExecuteEnabled features); reflexivity.
Qed.

(** The identities recorded beside a command are those of the arguments
    that have a validator, in the order of [args]. *)
Lemma built_ids_cover_validators (features : ExperimentalFeatures)
    (endpointAgentId : string) (capabilities : list string)
    (privileges : EndpointPrivileges) (pathValidate : Heap.loc)
    (o : Heap.CommandObject) :
  o ∈ Heap.built features endpointAgentId capabilities privileges pathValidate ->
  (Heap.argValidateIds o).*1
  = (filter (fun e => is_Some (Arg.validate e.2)) (args (Heap.definition o))).*1.
Proof.
  unfold Heap.built. rewrite !elem_of_app, !elem_of_cons, elem_of_nil.
  rewrite !elem_of_optional.
  intros [[-> | [-> | [-> | [-> | [-> | [-> | []]]]]]] | [[_ ->] | [_ ->]]];
    compute_done.
Qed.

Lemma built_without_get_file (features : ExperimentalFeatures)
    (endpointAgentId : string) (capabilities : list string)
    (privileges : EndpointPrivileges) (l1 l2 : Heap.loc) :
  responseActionGetFileEnabled features = false ->
  Heap.built features endpointAgentId capabilities privileges l1
  = Heap.built features endpointAgentId capabilities privileges l2.
Proof. intros H. unfold Heap.built. by rewrite H. Qed.

Lemma built_path_validator (features : ExperimentalFeatures)
    (endpointAgentId : string) (capabilities : list string)
    (privileges : EndpointPrivileges) (l : Heap.loc) :
  responseActionGetFileEnabled features = true ->
  Heap.argValidateIds
    <$> (Heap.built features endpointAgentId capabilities privileges l) !! 6
  = Some [("path", Heap.ArrowFunction l)].
Proof. intros H. unfold Heap.built. by rewrite H. Qed.

Lemma built_with_get_file (features : ExperimentalFeatures)
    (endpointAgentId : string) (capabilities : list string)
    (privileges : EndpointPrivileges) (l1 l2 : Heap.loc) :
  responseActionGetFileEnabled features = true ->
  Heap.built features endpointAgentId capabilities privileges l1
  = Heap.built features endpointAgentId capabilities privileges l2 ->
  l1 = l2.
Proof.
  intros Hflag Heq.
  pose proof (built_path_validator features endpointAgentId capabilities privileges
                l1 Hflag) as H1.
  rewrite Heq, (built_path_validator _ _ _ _ l2 Hflag) in H1. by injection H1.
Qed.

Lemma sameCommand_refl (h : list Heap.Object) (d : CommandDefinition)
    (ids : list (string * Heap.FunctionId)) :
  Forall (fun x => exists n, x.2 = Heap.ModuleFunction n) ids ->
  Heap.sameCommand h (Heap.object d ids) (Heap.object d ids).
Proof.
  intros Hids. repeat split. cbn [Heap.argValidateIds Heap.object].
  induction Hids as [| x ids [n Hn] _ IH]; constructor; [| exact IH].
  split; [reflexivity |]. by rewrite Hn.
Qed.

Lemma built_same (h : list Heap.Object) (features : ExperimentalFeatures)
    (endpointAgentId : string) (capabilities : list string)
    (privileges : EndpointPrivileges) (l1 l2 : Heap.loc) :
  (responseActionGetFileEnabled features = true ->
   exists code, h !! l1 = Some (Heap.FunctionObject code)
                /\ h !! l2 = Some (Heap.FunctionObject code)) ->
  Forall2 (Heap.sameCommand h)
    (Heap.built features endpointAgentId capabilities privileges l1)
    (Heap.built features endpointAgentId capabilities privileges l2).
Proof.
  intros Hcode. unfold Heap.built.
  repeat apply Forall2_app.
  - repeat (constructor; [apply sameCommand_refl; repeat constructor; by eexists |]).
    constructor.
  - destruct (responseActionGetFileEnabled features); [| constructor].
    constructor; [| constructor]. repeat split.
    constructor; [| constructor]. split; [reflexivity |]. by apply Hcode.
  - destruct (responseActionExecuteEnabled features); [| constructor].
    constructor; [| constructor].
    apply sameCommand_refl. repeat constructor. by eexists.
Qed.

(** C8, as the code has it. Two calls with the same agent id and feature
    flags, each given a capability array and a privileges object with the
    same contents, both return; neither modifies an object that existed
    before it (so the inputs are unchanged) nor the feature flags; the
    first returns the descriptors of [consoleCommandsFor], and the second
    returns descriptors with the same fields and with function fields that
    compute the same. Compared with functions taken by identity, the two
    lists are equal when get-file is disabled and differ when it is
    enabled: each call allocates the validator of get-file's path anew. *)
Theorem registry_calls_preserve_inputs_and_agree (σ : Heap.State)
    (endpointAgentId : string)
    (endpointCapabilities1 endpointPrivileges1 : Heap.loc)
    (endpointCapabilities2 endpointPrivileges2 : Heap.loc)
    (capabilities : list string) (privileges : EndpointPrivileges) :
  Heap.objects σ !! endpointCapabilities1 = Some (Heap.StringArray capabilities) ->
  Heap.objects σ !! endpointPrivileges1 = Some (Heap.PrivilegesObject privileges) ->
  Heap.objects σ !! endpointCapabilities2 = Some (Heap.StringArray capabilities) ->
  Heap.objects σ !! endpointPrivileges2 = Some (Heap.PrivilegesObject privileges) ->
  exists (r1 : Heap.loc) (σ1 : Heap.State) (r2 : Heap.loc) (σ2 : Heap.State)
         (commands1 commands2 : list Heap.CommandObject),
    Heap.getEndpointConsoleCommands endpointAgentId endpointCapabilities1
      endpointPrivileges1 σ = Some (r1, σ1)
    /\ Heap.getEndpointConsoleCommands endpointAgentId endpointCapabilities2
         endpointPrivileges2 σ1 = Some (r2, σ2)
    /\ Heap.experimentalFeatures σ1 = Heap.experimentalFeatures σ
    /\ Heap.experimentalFeatures σ2 = Heap.experimentalFeatures σ
    /\ (forall (l : Heap.loc) (o : Heap.Object),
          Heap.objects σ !! l = Some o ->
          Heap.objects σ1 !! l = Some o /\ Heap.objects σ2 !! l = Some o)
    /\ Heap.objects σ2 !! r1 = Some (Heap.CommandArray commands1)
    /\ Heap.objects σ2 !! r2 = Some (Heap.CommandArray commands2)
    /\ Heap.definition <$> commands1
       = consoleCommandsFor (Heap.experimentalFeatures σ) endpointAgentId
           capabilities privileges
    /\ Forall2 (Heap.sameCommand (Heap.objects σ2)) commands1 commands2
    /\ (responseActionGetFileEnabled (Heap.experimentalFeatures σ) = false ->
        commands1 = commands2)
    /\ (responseActionGetFileEnabled (Heap.experimentalFeatures σ) = true ->
        commands1 <> commands2).
Proof.
  intros Hc1 Hp1 Hc2 Hp2.
  pose proof (getEndpointConsoleCommands_run σ endpointAgentId _ _ _ _ Hc1 Hp1) as Hrun1.
  set (h := Heap.objects σ) in *. set (features := Heap.experimentalFeatures σ) in *.
  set (commands1 := Heap.built features endpointAgentId capabilities privileges
                      (S (length h))) in *.
  set (alloc1 := Heap.CommandArray commands1
                 :: (if responseActionGetFileEnabled features
                     then [Heap.FunctionObject
                             (fun argData => emptyArgumentValidator argData)]
                     else [])) in *.
  set (σ1 := {| Heap.experimentalFeatures := features;
                Heap.objects := h ++ alloc1 |}) in *.
  assert (Hc2' : Heap.objects σ1 !! endpointCapabilities2
                 = Some (Heap.StringArray capabilities))
    by (by apply lookup_app_l_Some).
  assert (Hp2' : Heap.objects σ1 !! endpointPrivileges2
                 = Some (Heap.PrivilegesObject privileges))
    by (by apply lookup_app_l_Some).
  pose proof (getEndpointConsoleCommands_run σ1 endpointAgentId _ _ _ _ Hc2' Hp2')
    as Hrun2.
  cbn [Heap.objects Heap.experimentalFeatures σ1] in Hrun2.
  set (h1 := h ++ alloc1) in *.
  set (commands2 := Heap.built features endpointAgentId capabilities privileges
                      (S (length h1))) in *.
  eexists (length h), σ1, (length h1), _, commands1, commands2.
  split; [exact Hrun1 |]. split; [exact Hrun2 |].
  cbn [Heap.objects Heap.experimentalFeatures].
  split; [reflexivity |]. split; [reflexivity |].
  split.
  { intros l o Hl. split; [by apply lookup_app_l_Some |].
    apply lookup_app_l_Some. by apply lookup_app_l_Some. }
  split.
  { apply lookup_app_l_Some. unfold h1, alloc1. apply lookup_at_end. }
  split; [apply lookup_at_end |].
  split; [apply built_definitions |].
  assert (Hlen : length h < length h1)
    by (unfold h1, alloc1; rewrite length_app; cbn [length]; lia).
  split.
  { apply built_same. intros Hflag.
    exists (fun argData => emptyArgumentValidator argData).
    unfold h1, alloc1. rewrite Hflag. split.
    - apply lookup_app_l_Some. apply lookup_after_end.
    - apply lookup_after_end. }
  split.
  { intros Hflag. by apply built_without_get_file. }
  intros Hflag Heq. apply built_with_get_file in Heq; [| exact Hflag]. lia.
Qed.

Lemma registry_calls_preserve_inputs_and_agree_witness :
  exists (r1 : Heap.loc) (σ1 : Heap.State),
    Heap.getEndpointConsoleCommands "agent-1" 0 1 sampleHeap = Some (r1, σ1)
    /\ Heap.objects σ1 !! 0 = Some (Heap.StringArray ["isolation"; "get_file"])
    /\ Heap.objects σ1 !! 1 = Some (Heap.PrivilegesObject allPrivileges).
Proof.
  destruct (registry_calls_preserve_inputs_and_agree sampleHeap "agent-1" 0 1 0 1
              ["isolation"; "get_file"] allPrivileges
              eq_refl eq_refl eq_refl eq_refl)
    as (r1 & σ1 & r2 & σ2 & commands1 & commands2 & Hrun & _ & _ & _ & Hframe & _).
  exists r1, σ1. split; [exact Hrun |]. split; apply Hframe; reflexivity.
Defined.

(** C8, as stated, fails: with get-file enabled two calls on the same
    inputs leave different lists, the validator of get-file's path being
    the function at location 3 in the first and at location 5 in the
    second. *)
Lemma registry_calls_differ_on_get_file :
  exists (r1 : Heap.loc) (σ1 : Heap.State) (r2 : Heap.loc) (σ2 : Heap.State)
         (commands1 commands2 : list Heap.CommandObject),
    Heap.getEndpointConsoleCommands "agent-1" 0 1 sampleHeap = Some (r1, σ1)
    /\ Heap.getEndpointConsoleCommands "agent-1" 0 1 σ1 = Some (r2, σ2)
    /\ Heap.objects σ2 !! r1 = Some (Heap.CommandArray commands1)
    /\ Heap.objects σ2 !! r2 = Some (Heap.CommandArray commands2)
    /\ Heap.argValidateIds <$> commands1 !! 6 = Some [("path", Heap.ArrowFunction 3)]
    /\ Heap.argValidateIds <$> commands2 !! 6 = Some [("path", Heap.ArrowFunction 5)]
    /\ commands1 <> commands2.
Proof.
  pose proof (getEndpointConsoleCommands_run sampleHeap "agent-1" 0 1
                ["isolation"; "get_file"] allPrivileges eq_refl eq_refl) as Hrun1.
  cbn [Heap.objects Heap.experimentalFeatures sampleHeap length
       responseActionGetFileEnabled allFeatures app] in Hrun1.
  eexists _, _. 
  pose proof (fun σ1 => getEndpointConsoleCommands_run σ1 "agent-1" 0 1
                ["isolation"; "get_file"] allPrivileges) as Hrun2.
  eexists _, _, _, _.
  split; [exact Hrun1 |].
  split; [apply Hrun2; reflexivity |].
  cbn [Heap.objects Heap.experimentalFeatures length responseActionGetFileEnabled
       allFeatures app].
  split; [reflexivity |]. split; [reflexivity |].
  split; [reflexivity |]. split; [reflexivity |].
  intros Heq. apply built_with_get_file in Heq; [discriminate Heq | reflexivity].
Qed.

(** C9. The list always holds a status command, and a command named status
    in it has no [validate], holds in its [meta] the endpoint id alone (no
    capabilities, no privileges), and has neither [helpDisabled] nor
    [helpHidden]: the gate does not apply to it. *)
Theorem status_bypasses_gate (features : ExperimentalFeatures)
    (endpointAgentId : string) (endpointCapabilities : list string)
    (endpointPrivileges : EndpointPrivileges) :
  let commands :=
    consoleCommandsFor features endpointAgentId endpointCapabilities endpointPrivileges in
  (exists d : CommandDefinition, d ∈ commands /\ name d = "status")
  /\ (forall d : CommandDefinition,
        d ∈ commands -> name d = "status" ->
        validate d = None
        /\ meta d = {| endpointId := endpointAgentId; capabilities := None;
                       privileges := None |}
        /\ helpDisabled d = None
        /\ helpHidden d = None).
Proof.
  cbv zeta. split.
  - exists (statusCommand endpointAgentId). split; [| reflexivity].
    apply consoleCommandsFor_elem. tauto.
  - intros d Hd Hname. apply consoleCommandsFor_elem in Hd.
    destruct Hd as [-> | [-> | [-> | [-> | [-> | [-> | [[_ ->] | [_ ->]]]]]]]];
      try discriminate Hname.
    repeat split.
Qed.

Lemma status_bypasses_gate_witness :
  validate (statusCommand "agent-1") = None
  /\ helpDisabled (statusCommand "agent-1") = None
  /\ helpHidden (statusCommand "agent-1") = None.
Proof.
  destruct (status_bypasses_gate allFeatures "agent-1" [] noPrivileges) as [_ H].
  destruct (H (statusCommand "agent-1")) as (Hv & _ & Hd & Hh).
  - apply consoleCommandsFor_elem. tauto.
  - reflexivity.
  - exact (conj Hv (conj Hd Hh)).
Defined.

(** C10. In the get-file descriptor the [isSupported] of the about info is
    whether [running_processes], the capability of processes, is in the
    capability set, while [helpDisabled] is whether [get_file] is missing
    from it; the descriptor is in the list when its flag is set; and for
    the capability set holding [get_file] alone the about info says
    unsupported while the command is not disabled. *)
Theorem get_file_about_reads_processes_capability :
  (forall (features : ExperimentalFeatures) (endpointAgentId : string)
          (endpointCapabilities : list string) (endpointPrivileges : EndpointPrivileges)
          (d : CommandDefinition),
      d ∈ consoleCommandsFor features endpointAgentId endpointCapabilities
            endpointPrivileges ->
      name d = "get-file" ->
      about d = CommandAboutInfo "Retrieve a file from the host"
                  (includes endpointCapabilities "running_processes")
      /\ helpDisabled d = Some (negb (includes endpointCapabilities "get_file")))
  /\ (forall (features : ExperimentalFeatures) (endpointAgentId : string)
             (endpointCapabilities : list string) (endpointPrivileges : EndpointPrivileges),
        responseActionGetFileEnabled features = true ->
        exists d : CommandDefinition,
          d ∈ consoleCommandsFor features endpointAgentId endpointCapabilities
                endpointPrivileges
          /\ name d = "get-file")
  /\ (exists endpointCapabilities : list string,
        includes endpointCapabilities "get_file" = true
        /\ includes endpointCapabilities "running_processes" = false
        /\ forall (endpointAgentId : string) (endpointPrivileges : EndpointPrivileges),
             about (getFileCommand endpointAgentId endpointCapabilities endpointPrivileges)
             = CommandAboutInfo "Retrieve a file from the host" false
             /\ helpDisabled
                  (getFileCommand endpointAgentId endpointCapabilities endpointPrivileges)
                = Some false).
Proof.
  split; [| split].
  - intros features endpointAgentId endpointCapabilities endpointPrivileges d Hd Hname.
    apply consoleCommandsFor_elem in Hd.
    destruct Hd as [-> | [-> | [-> | [-> | [-> | [-> | [[_ ->] | [_ ->]]]]]]]];
      try discriminate Hname.
    split; reflexivity.
  - intros features endpointAgentId endpointCapabilities endpointPrivileges Hflag.
    exists (getFileCommand endpointAgentId endpointCapabilities endpointPrivileges).
    split; [| reflexivity]. apply consoleCommandsFor_elem. tauto.
  - exists ["get_file"]. repeat split.
Qed.

Lemma get_file_about_reads_processes_capability_witness :
  about (getFileCommand "agent-1" ["get_file"] allPrivileges)
  = CommandAboutInfo "Retrieve a file from the host" false
  /\ helpDisabled (getFileCommand "agent-1" ["get_file"] allPrivileges) = Some false.
Proof.
  destruct get_file_about_reads_processes_capability as [H _].
  apply (H allFeatures "agent-1" ["get_file"] allPrivileges
           (getFileCommand "agent-1" ["get_file"] allPrivileges)).
  - apply consoleCommandsFor_elem. do 6 right. left. split; reflexivity.
  - reflexivity.
Defined.

(** ** The argument validators *)

(** C5. The PID validator returns true on 123 and a message on 0, -5, the
    empty string and abc. *)
Theorem pidValidator_examples :
  pidValidator [VString "123"] = VTrue
  /\ pidValidator [VString "0"]
     = VMessage "Argument must be a positive number representing the PID of a process"
  /\ pidValidator [VString "-5"]
     = VMessage "Argument must be a positive number representing the PID of a process"
  /\ pidValidator [VString EmptyString] = VMessage "Argument cannot be empty"
  /\ pidValidator [VString "abc"]
     = VMessage "Argument must be a positive number representing the PID of a process".
Proof. repeat split; vm_compute; reflexivity. Qed.

Lemma validateUnitOfTime_nonempty (value : string) :
  validateUnitOfTime value = true -> bool_decide (0 < String.length value) = true.
Proof.
  intros H. apply nonempty_length. intros ->. discriminate H.
Qed.

Lemma executeTimeoutValidator_single (s : string) :
  executeTimeoutValidator [VString s] = VTrue <-> validateUnitOfTime (JS.trim s) = true.
Proof.
  unfold executeTimeoutValidator. cbn [String_of join ToString].
  destruct (validateUnitOfTime (JS.trim s)) eqn:Hv.
  - rewrite (validateUnitOfTime_nonempty _ Hv). by split.
  - rewrite andb_false_r. by split.
Qed.

(** C6, as the code has it. The duration validator returns true on 37m, 2s
    and 4h and a message on 37, m37 and the empty string; it accepts a
    single string exactly when the string, with the whitespace around it
    trimmed, is a positive integer followed by one of the units h, m, s. *)
Theorem executeTimeoutValidator_trimmed_duration :
  executeTimeoutValidator [VString "37m"] = VTrue
  /\ executeTimeoutValidator [VString "2s"] = VTrue
  /\ executeTimeoutValidator [VString "4h"] = VTrue
  /\ executeTimeoutValidator [VString "37"]
     = VMessage
         "Argument must be a string with a positive integer value followed by a unit of time (h for hours, m for minutes, s for seconds). Example: 37m."
  /\ executeTimeoutValidator [VString "m37"]
     = VMessage
         "Argument must be a string with a positive integer value followed by a unit of time (h for hours, m for minutes, s for seconds). Example: 37m."
  /\ executeTimeoutValidator [VString EmptyString]
     = VMessage
         "Argument must be a string with a positive integer value followed by a unit of time (h for hours, m for minutes, s for seconds). Example: 37m."
  /\ (forall s : string,
        executeTimeoutValidator [VString s] = VTrue
        <-> validateUnitOfTime (JS.trim s) = true).
Proof.
  do 6 (split; [vm_compute; reflexivity |]). exact executeTimeoutValidator_single.
Qed.

Lemma executeTimeoutValidator_trimmed_duration_witness :
  executeTimeoutValidator [VString "37m  "] = VTrue.
Proof.
  destruct executeTimeoutValidator_trimmed_duration as (_ & _ & _ & _ & _ & _ & H).
  apply (H "37m  "). reflexivity.
Defined.

(** C6, as stated, fails: the string made of a space and 37m is accepted,
    and it is not a positive integer followed by a unit. *)
Lemma executeTimeoutValidator_accepts_padded :
  executeTimeoutValidator [VString " 37m"] = VTrue
  /\ validateUnitOfTime " 37m" = false.
Proof. split; vm_compute; reflexivity. Qed.

(** ** The arguments of kill-process *)

Section KillProcessArguments.

Variable endpointAgentId : string.
Variable endpointCapabilities : list string.
Variable endpointPrivileges : EndpointPrivileges.

Local Abbreviation killProcess :=
  (killProcessCommand endpointAgentId endpointCapabilities endpointPrivileges).

Lemma killProcess_checkRequired (supplied : list (string * ParsedArgData)) :
  checkRequired (args killProcess) supplied = ArgumentsOk.
Proof. reflexivity. Qed.

Lemma killProcess_exclusiveOrArgs : exclusiveOrArgs (args killProcess) = ["pid"; "entityId"].
Proof. reflexivity. Qed.

Lemma killProcess_checkExclusiveOr (supplied : list (string * ParsedArgData)) :
  checkExclusiveOr (args killProcess) supplied
  = if xorb (isSupplied supplied "pid") (isSupplied supplied "entityId")
    then ArgumentsOk
    else ArgumentsErr (ExclusiveOrArguments ["pid"; "entityId"]).
Proof.
  unfold checkExclusiveOr. rewrite killProcess_exclusiveOrArgs.
  rewrite !filter_cons, filter_nil.
  destruct (isSupplied supplied "pid"), (isSupplied supplied "entityId");
    repeat case_decide; simpl in *; try congruence; try lia; reflexivity.
Qed.

Lemma killProcess_checkEach (supplied : list (string * ParsedArgData)) :
  Forall validKillProcessValue supplied ->
  checkEach (args killProcess) supplied = ArgumentsOk.
Proof.
  induction 1 as [| [k d] r (Hlen & Hpid & Hentity) _ IH]; [reflexivity |].
  cbn [fst snd] in *.
  assert (Hone : bool_decide (1 < length d) = false)
    by (apply bool_decide_eq_false; lia).
  cbn [checkEach]. unfold killProcessCommand at 1. cbn [args lookupArg].
  destruct (String.eqb_spec "comment" k) as [<- | _].
  { cbn. rewrite Hone. exact IH. }
  destruct (String.eqb_spec "pid" k) as [<- | _].
  { cbn [Arg.allowMultiples Arg.validate negb andb]. rewrite Hone, Hpid by reflexivity.
    exact IH. }
  destruct (String.eqb_spec "entityId" k) as [<- | _].
  { cbn [Arg.allowMultiples Arg.validate negb andb]. rewrite Hone, Hentity by reflexivity.
    exact IH. }
  exact IH.
Qed.

(** C4. For kill-process, an input that supplies both [pid] and [entityId]
    is rejected, and an input that supplies exactly one of the two, with
    values the validators accept, is accepted. *)
Theorem kill_process_pid_xor_entityId (supplied : list (string * ParsedArgData)) :
  (isSupplied supplied "pid" = true ->
   isSupplied supplied "entityId" = true ->
   validateArguments killProcess supplied
   = ArgumentsErr (ExclusiveOrArguments ["pid"; "entityId"]))
  /\ (xorb (isSupplied supplied "pid") (isSupplied supplied "entityId") = true ->
      Forall validKillProcessValue supplied ->
      validateArguments killProcess supplied = ArgumentsOk).
Proof.
  unfold validateArguments.
  rewrite killProcess_checkRequired, killProcess_checkExclusiveOr.
  split.
  - intros -> ->. reflexivity.
  - intros -> Hvalid. by apply killProcess_checkEach.
Qed.

End KillProcessArguments.

Lemma kill_process_pid_xor_entityId_witness :
  validateArguments (killProcessCommand "agent-1" ["kill_process"] allPrivileges)
    [("pid", [VString "123"]); ("entityId", [VString "abc"])]
  = ArgumentsErr (ExclusiveOrArguments ["pid"; "entityId"])
  /\ validateArguments (killProcessCommand "agent-1" ["kill_process"] allPrivileges)
       [("pid", [VString "123"]); ("comment", [VString "stop it"])]
     = ArgumentsOk
  /\ validateArguments (killProcessCommand "agent-1" ["kill_process"] allPrivileges)
       [("entityId", [VString "abc"])]
     = ArgumentsOk.
Proof.
  split; [| split].
  - apply (kill_process_pid_xor_entityId "agent-1" ["kill_process"] allPrivileges
             [("pid", [VString "123"]); ("entityId", [VString "abc"])]); reflexivity.
  - apply (kill_process_pid_xor_entityId "agent-1" ["kill_process"] allPrivileges
             [("pid", [VString "123"]); ("comment", [VString "stop it"])]);
      [reflexivity |].
    repeat constructor; cbn; try lia; try discriminate; intros _; vm_compute; reflexivity.
  - apply (kill_process_pid_xor_entityId "agent-1" ["kill_process"] allPrivileges
             [("entityId", [VString "abc"])]);
      [reflexivity |].
    repeat constructor; cbn; try lia; try discriminate; intros _; vm_compute; reflexivity.
Defined.

(** ** The Number model *)

Example StringToNumber_tenth :
  JS.StringToNumber "0.1" = JS.Finite false 7205759403792794 (-56).
Proof. vm_compute. reflexivity. Qed.

Example StringToNumber_tie_to_even :
  JS.StringToNumber "9007199254740993" = JS.Finite false (2 ^ 52) 1.
Proof. vm_compute. reflexivity. Qed.

Example StringToNumber_overflow : JS.StringToNumber "1e309" = JS.Infinity false.
Proof. vm_compute. reflexivity. Qed.

Example StringToNumber_least_subnormal :
  JS.StringToNumber "3e-324" = JS.Finite false 1 (-1074).
Proof. vm_compute. reflexivity. Qed.

Example StringToNumber_hex : JS.StringToNumber " 0x1F " = JS.Finite false (31 * 2 ^ 48) (-48).
Proof. vm_compute. reflexivity. Qed.

Example StringToNumber_nan :
  JS.StringToNumber "12,3" = JS.NaN /\ JS.StringToNumber "." = JS.NaN
  /\ JS.StringToNumber "-0x10" = JS.NaN.
Proof. repeat split; vm_compute; reflexivity. Qed.

(** An integer of the safe range is a double, so rounding keeps it. *)
Lemma roundBinary64_safe_integer (n : Z) :
  (0 < n < 2 ^ 53)%Z ->
  JS.roundBinary64 false n 1
  = JS.Finite false (n * 2 ^ (52 - Z.log2 n)) (Z.log2 n - 52).
Proof.
  intros [Hpos Hlt].
  pose proof (Z.log2_nonneg n) as Hl0.
  pose proof (proj1 (Z.log2_lt_pow2 n 53 Hpos) Hlt) as Hl53.
  pose proof (Z.log2_spec n Hpos) as [Hlow _].
  unfold JS.roundBinary64.
  replace (Z.log2 1) with 0%Z by reflexivity.
  rewrite Z.sub_0_r, Z.mul_1_l.
  rewrite (proj2 (Z.eqb_neq n 0)) by lia.
  rewrite (proj2 (Z.leb_le 0 (Z.log2 n))) by lia.
  rewrite (proj2 (Z.leb_le (2 ^ Z.log2 n) n)) by lia.
  rewrite Z.max_l by lia.
  destruct (Z.ltb_spec (Z.log2 n - 52) 0) as [Hq | Hq].
  - rewrite Z.div_1_r, Z.mod_1_r.
    replace (2 * 0 <? 1)%Z with true by reflexivity.
    rewrite (proj2 (Z.leb_gt 0 (Z.log2 n - 52))) by lia.
    cbn [andb].
    replace (- (Z.log2 n - 52))%Z with (52 - Z.log2 n)%Z by lia. reflexivity.
  - assert (Z.log2 n = 52%Z) as -> by lia.
    replace (52 - 52)%Z with 0%Z by reflexivity.
    rewrite Z.pow_0_r, !Z.mul_1_r, Z.div_1_r, Z.mod_1_r.
    replace (2 * 0 <? 1)%Z with true by reflexivity.
    replace (0 <=? 0)%Z with true by reflexivity.
    rewrite (proj2 (Z.leb_gt (2 ^ 1024) n)); [reflexivity |].
    apply Z.lt_trans with (2 ^ 53)%Z; [exact Hlt |].
    apply Z.pow_lt_mono_r; lia.
Qed.

(** So every integer from 1 to 2^53 - 1 passes the numeric test of
    [pidValidator]. *)
Lemma safe_integer_is_pid (n : Z) :
  (0 < n < 2 ^ 53)%Z ->
  JS.isSafeInteger (JS.roundBinary64 false n 1) = true
  /\ JS.gtZero (JS.roundBinary64 false n 1) = true.
Proof.
  intros Hn. rewrite (roundBinary64_safe_integer n Hn). destruct Hn as [Hpos Hlt].
  pose proof (Z.log2_nonneg n) as Hl0.
  pose proof (proj1 (Z.log2_lt_pow2 n 53 Hpos) Hlt) as Hl53.
  assert (Hpow : (0 < 2 ^ (52 - Z.log2 n))%Z) by (apply Z.pow_pos_nonneg; lia).
  split.
  - unfold JS.isSafeInteger.
    destruct (Z.leb_spec 0 (Z.log2 n - 52)) as [Hq | Hq].
    + assert (Z.log2 n = 52%Z) as -> by lia.
      replace (52 - 52)%Z with 0%Z by reflexivity.
      rewrite Z.pow_0_r, !Z.mul_1_r. apply Z.leb_le. lia.
    + replace (- (Z.log2 n - 52))%Z with (52 - Z.log2 n)%Z by lia.
      rewrite Z.mod_mul, Z.div_mul by lia.
      rewrite Z.eqb_refl. apply Z.leb_le. lia.
  - unfold JS.gtZero. cbn [negb andb]. apply Z.ltb_lt. nia.
Qed.

(** ** Trimming *)

Lemma trimStart_blank (s : string) : isBlank (JS.trimStart s) = isBlank s.
Proof.
  induction s as [| c r IH]; [reflexivity |]. simpl.
  destruct (JS.isWhiteSpace c) eqn:Hc; simpl; [exact IH | by rewrite Hc].
Qed.

Lemma trimEnd_empty_iff (s : string) : JS.trimEnd s = EmptyString <-> isBlank s = true.
Proof.
  induction s as [| c r IH]; simpl; [done |].
  destruct (JS.trimEnd r) eqn:Hr.
  - destruct (JS.isWhiteSpace c); simpl.
    + split; [intros _; by apply IH | done].
    + split; discriminate.
  - split; [discriminate |]. intros [_ Hb]%andb_true_iff.
    apply IH in Hb. discriminate.
Qed.

Lemma trim_empty_iff (s : string) : JS.trim s = EmptyString <-> isBlank s = true.
Proof. unfold JS.trim. by rewrite trimEnd_empty_iff, trimStart_blank. Qed.

Lemma trimStart_head (s : string) :
  JS.trimStart s = EmptyString
  \/ exists c r, JS.trimStart s = String c r /\ JS.isWhiteSpace c = false.
Proof.
  induction s as [| c r IH]; simpl; [by left |].
  destruct (JS.isWhiteSpace c) eqn:Hc; [exact IH | right; eauto].
Qed.

Lemma trimEnd_head (c : ascii) (r : string) :
  JS.isWhiteSpace c = false -> exists r', JS.trimEnd (String c r) = String c r'.
Proof.
  intros Hc. simpl. rewrite Hc. destruct (JS.trimEnd r); eauto.
Qed.

Lemma trimEnd_idempotent (s : string) : JS.trimEnd (JS.trimEnd s) = JS.trimEnd s.
Proof.
  induction s as [| c r IH]; [reflexivity |]. simpl.
  destruct (JS.trimEnd r) as [| c' r'] eqn:Hr.
  - destruct (JS.isWhiteSpace c) eqn:Hc; [reflexivity |]. simpl. by rewrite Hc.
  - change (JS.trimEnd (String c (String c' r')) = String c (String c' r')).
    cbn [JS.trimEnd] in *. by rewrite IH.
Qed.

(** Trimming twice is trimming once. *)
Lemma trim_idempotent (s : string) : JS.trim (JS.trim s) = JS.trim s.
Proof.
  unfold JS.trim.
  destruct (trimStart_head s) as [-> | (c & r & -> & Hc)]; [reflexivity |].
  destruct (trimEnd_head c r Hc) as [r' Hr']. rewrite Hr'.
  cbn [JS.trimStart]. rewrite Hc, <- Hr'. apply trimEnd_idempotent.
Qed.

Lemma trim_length_pos (s : string) :
  bool_decide (0 < String.length (JS.trim s)) = negb (isBlank s).
Proof.
  destruct (isBlank s) eqn:Hb.
  - apply trim_empty_iff in Hb. by rewrite Hb.
  - destruct (JS.trim s) eqn:Ht.
    + apply trim_empty_iff in Ht. congruence.
    + apply bool_decide_eq_true. simpl. lia.
Qed.

(** ** More on the argument validators *)

Lemma emptyArgumentValidator_string (s : string) (rest : ParsedArgData) :
  emptyArgumentValidator (VString s :: rest)
  = if isBlank s
    then VMessage "Argument cannot be empty"
    else VTrue.
Proof.
  unfold emptyArgumentValidator. cbn [length lookup list_lookup].
  rewrite trim_length_pos.
  rewrite (bool_decide_eq_true_2 (0 < S (length rest))) by lia.
  by destruct (isBlank s).
Qed.

(** X1. [emptyArgumentValidator] accepts exactly the inputs whose first
    value is a string holding a code unit that is not white space: an
    empty array, a boolean first value and a blank first string are
    refused, and the values after the first are not looked at. *)
Theorem emptyArgumentValidator_accepts_iff (argData : ParsedArgData) :
  emptyArgumentValidator argData = VTrue
  <-> exists (s : string) (rest : ParsedArgData),
        argData = VString s :: rest /\ isBlank s = false.
Proof.
  split.
  - destruct argData as [| [s | b] rest]; [discriminate | | discriminate].
    rewrite emptyArgumentValidator_string.
    destruct (isBlank s) eqn:Hb; [discriminate |]. eauto.
  - intros (s & rest & -> & Hb). by rewrite emptyArgumentValidator_string, Hb.
Qed.

Lemma emptyArgumentValidator_accepts_iff_witness :
  emptyArgumentValidator [VString " /tmp/a "; VBoolean true] = VTrue.
Proof.
  apply emptyArgumentValidator_accepts_iff.
  exists " /tmp/a ", [VBoolean true]. split; reflexivity.
Defined.

Lemma StringToNumber_trim (s : string) :
  JS.StringToNumber (JS.trim s) = JS.StringToNumber s.
Proof. unfold JS.StringToNumber. by rewrite trim_idempotent. Qed.

Lemma isBlank_trim (s : string) : isBlank (JS.trim s) = isBlank s.
Proof.
  destruct (isBlank s) eqn:Hb.
  - apply trim_empty_iff in Hb. by rewrite Hb.
  - destruct (isBlank (JS.trim s)) eqn:Ht; [| reflexivity].
    apply trim_empty_iff in Ht. rewrite trim_idempotent in Ht.
    apply trim_empty_iff in Ht. congruence.
Qed.

(** X2. White space around a PID does not change the verdict of
    [pidValidator]: a single string and its trimmed form get the same
    result. *)
Theorem pidValidator_ignores_surrounding_whitespace (s : string) :
  pidValidator [VString (JS.trim s)] = pidValidator [VString s].
Proof.
  unfold pidValidator. rewrite !emptyArgumentValidator_string, isBlank_trim.
  unfold Number_of. cbn [String_of join ToString]. by rewrite StringToNumber_trim.
Qed.

(** X3. White space around a timeout does not change the verdict of
    [executeTimeoutValidator], and a blank string is refused. *)
Theorem executeTimeoutValidator_ignores_surrounding_whitespace (s : string) :
  executeTimeoutValidator [VString (JS.trim s)] = executeTimeoutValidator [VString s]
  /\ (isBlank s = true -> executeTimeoutValidator [VString s] <> VTrue).
Proof.
  unfold executeTimeoutValidator. cbn [String_of join ToString].
  rewrite trim_idempotent. split; [reflexivity |].
  intros Hb. rewrite trim_length_pos, Hb. discriminate.
Qed.

Lemma executeTimeoutValidator_ignores_surrounding_whitespace_witness :
  executeTimeoutValidator [VString "   "] <> VTrue.
Proof.
  apply (executeTimeoutValidator_ignores_surrounding_whitespace "   "). reflexivity.
Defined.

(** ** Numbers the PID validator refuses *)

Lemma roundBinary64_sign (negative : bool) (n d : Z) :
  JS.roundBinary64 negative n d = JS.Infinity negative
  \/ exists m q, JS.roundBinary64 negative n d = JS.Finite negative m q.
Proof.
  unfold JS.roundBinary64. destruct (n =? 0)%Z; [right; eauto |].
  cbv zeta.
  match goal with
  | |- context [if ?c then JS.Infinity negative else _] => destruct c
  end; [by left | right; eauto].
Qed.

Lemma parseStrDecimalLiteral_negative (s : string) :
  JS.gtZero (JS.parseStrDecimalLiteral true s) = false.
Proof.
  unfold JS.parseStrDecimalLiteral. destruct (String.eqb s "Infinity"); [reflexivity |].
  destruct (JS.parseUnsignedDecimal s) as [[m e] |]; [| reflexivity].
  unfold JS.ofDecimal.
  destruct (0 <=? e)%Z;
    match goal with
    | |- context [JS.roundBinary64 true ?n ?d] =>
        destruct (roundBinary64_sign true n d) as [-> | (m' & q & ->)]; reflexivity
    end.
Qed.

(** X4. A string whose first code unit after trimming is a minus sign is
    never a PID: [pidValidator] refuses it with the invalid-PID message. *)
Theorem pidValidator_rejects_negative (s r : string) :
  JS.trim s = String "-" r ->
  pidValidator [VString s]
  = VMessage "Argument must be a positive number representing the PID of a process".
Proof.
  intros Ht. unfold pidValidator. rewrite emptyArgumentValidator_string.
  assert (isBlank s = false) as ->.
  { destruct (isBlank s) eqn:Hb; [| reflexivity].
    apply trim_empty_iff in Hb. congruence. }
  unfold Number_of. cbn [String_of join ToString].
  assert (JS.StringToNumber s = JS.parseStrDecimalLiteral true r) as ->
    by (unfold JS.StringToNumber; rewrite Ht; reflexivity).
  by rewrite parseStrDecimalLiteral_negative, andb_false_r.
Qed.

Lemma pidValidator_rejects_negative_witness :
  pidValidator [VString " -17"]
  = VMessage "Argument must be a positive number representing the PID of a process".
Proof. apply (pidValidator_rejects_negative " -17" "17"). reflexivity. Defined.

(** *** Several values *)

Lemma hasComma_append (s t : string) : hasComma (s +:+ t) = hasComma s || hasComma t.
Proof.
  induction s as [| c r IH]; [reflexivity |].
  change (hasComma (String c (r +:+ t)) = hasComma (String c r) || hasComma t).
  simpl. by rewrite IH, orb_assoc.
Qed.

Lemma join_comma (x y : ArgValue) (rest : ParsedArgData) :
  hasComma (String_of (x :: y :: rest)) = true.
Proof.
  unfold String_of. cbn [join]. rewrite !hasComma_append.
  replace (hasComma ",") with true by reflexivity.
  by rewrite orb_true_l, orb_true_r.
Qed.

Lemma comma_not_whitespace (c : ascii) :
  Ascii.eqb c "," = true -> JS.isWhiteSpace c = false.
Proof. intros ->%Ascii.eqb_eq. reflexivity. Qed.

Lemma trimStart_comma (s : string) : hasComma (JS.trimStart s) = hasComma s.
Proof.
  induction s as [| c r IH]; [reflexivity |]. simpl.
  destruct (JS.isWhiteSpace c) eqn:Hc; [| reflexivity].
  destruct (Ascii.eqb c ",") eqn:He; [| exact IH].
  apply comma_not_whitespace in He. congruence.
Qed.

Lemma trimEnd_comma (s : string) : hasComma (JS.trimEnd s) = hasComma s.
Proof.
  induction s as [| c r IH]; [reflexivity |]. simpl.
  destruct (JS.trimEnd r) as [| c' r'] eqn:Hr.
  - simpl in IH. rewrite <- IH.
    destruct (JS.isWhiteSpace c) eqn:Hc; simpl; [| reflexivity].
    destruct (Ascii.eqb c ",") eqn:He; [| reflexivity].
    apply comma_not_whitespace in He. congruence.
  - cbn [hasComma] in *. by rewrite IH.
Qed.

Lemma trim_comma (s : string) : hasComma (JS.trim s) = hasComma s.
Proof. unfold JS.trim. by rewrite trimEnd_comma, trimStart_comma. Qed.

Lemma digitIn_comma (radix : Z) (c : ascii) :
  Ascii.eqb c "," = true -> JS.digitIn radix c = None.
Proof. intros ->%Ascii.eqb_eq. reflexivity. Qed.

(** The digits that [scanDigits] reads hold no comma. *)
Lemma scanDigits_comma (radix : Z) (s : string) (acc n : Z) :
  hasComma (JS.scanDigits radix acc n s).2 = hasComma s.
Proof.
  revert acc n. induction s as [| c r IH]; intros acc n; [reflexivity |].
  cbn [JS.scanDigits]. destruct (JS.digitIn radix c) as [v |] eqn:Hd; [| reflexivity].
  rewrite IH. cbn [hasComma].
  destruct (Ascii.eqb c ",") eqn:He; [| reflexivity].
  rewrite (digitIn_comma _ _ He) in Hd. discriminate.
Qed.

Lemma parseDigits_comma (radix : Z) (s : string) :
  hasComma s = true -> JS.parseDigits radix s = None.
Proof.
  intros Hs. unfold JS.parseDigits.
  pose proof (scanDigits_comma radix s 0 0) as H.
  destruct (JS.scanDigits radix 0 0 s) as [[v n] rest]. cbn [snd] in H.
  destruct rest; [| reflexivity]. simpl in H. congruence.
Qed.

Lemma parseExponent_comma (s : string) :
  hasComma s = true -> JS.parseExponent s = None.
Proof.
  intros Hs. unfold JS.parseExponent.
  destruct s as [| c r]; [discriminate |].
  destruct (Ascii.eqb_spec c "+") as [-> | Hplus];
    [by rewrite parseDigits_comma |].
  destruct (Ascii.eqb_spec c "-") as [-> | Hminus];
    [by rewrite parseDigits_comma |].
  transitivity (JS.parseDigits 10 (String c r)); [| by apply parseDigits_comma].
  destruct c as [[] [] [] [] [] [] [] []]; try reflexivity; congruence.
Qed.

Lemma parseUnsignedDecimal_comma (s : string) :
  hasComma s = true -> JS.parseUnsignedDecimal s = None.
Proof.
  intros Hs. unfold JS.parseUnsignedDecimal.
  pose proof (scanDigits_comma 10 s 0 0) as H1.
  destruct (JS.scanDigits 10 0 0 s) as [[ip ni] r1]. cbn [snd] in H1.
  rewrite Hs in H1.
  assert (Hfrac : forall r2 m nf,
    hasComma r2 = true ->
    (if (ni + nf =? 0)%Z then @None (Z * Z)
     else match r2 with
          | EmptyString => Some (m, (- nf)%Z)
          | String c r3 =>
              if (Ascii.eqb c "e" || Ascii.eqb c "E")%bool
              then match JS.parseExponent r3 with
                   | Some x => Some (m, (x - nf)%Z)
                   | None => None
                   end
              else None
          end) = None).
  { intros r2 m nf Hr2. destruct (ni + nf =? 0)%Z; [reflexivity |].
    destruct r2 as [| c r3]; [discriminate |].
    destruct (Ascii.eqb c "e" || Ascii.eqb c "E")%bool eqn:He; [| reflexivity].
    rewrite parseExponent_comma; [reflexivity |].
    cbn [hasComma] in Hr2. apply orb_true_iff in Hr2 as [Hc | Hr3]; [| exact Hr3].
    apply Ascii.eqb_eq in Hc. subst c. discriminate He. }
  destruct r1 as [| c r]; [discriminate |].
  destruct (Ascii.eqb_spec c ".") as [-> | Hdot].
  - pose proof (scanDigits_comma 10 r ip 0) as H2.
    destruct (JS.scanDigits 10 ip 0 r) as [[m nf] r2]. cbn [snd] in H2.
    apply Hfrac. rewrite H2. exact H1.
  - transitivity
      (let '(m, nf, r2) := (ip, 0%Z, String c r) in
       if (ni + nf =? 0)%Z then @None (Z * Z)
       else match r2 with
            | EmptyString => Some (m, (- nf)%Z)
            | String c r3 =>
                if (Ascii.eqb c "e" || Ascii.eqb c "E")%bool
                then match JS.parseExponent r3 with
                     | Some x => Some (m, (x - nf)%Z)
                     | None => None
                     end
                else None
            end).
    + destruct c as [[] [] [] [] [] [] [] []]; try reflexivity; congruence.
    + exact (Hfrac (String c r) ip 0%Z H1).
Qed.

Lemma parseStrDecimalLiteral_comma (negative : bool) (s : string) :
  hasComma s = true -> JS.parseStrDecimalLiteral negative s = JS.NaN.
Proof.
  intros Hs. unfold JS.parseStrDecimalLiteral.
  destruct (String.eqb_spec s "Infinity") as [-> | _]; [discriminate Hs |].
  by rewrite parseUnsignedDecimal_comma.
Qed.

(** A string with a comma in it is not a numeric literal. *)
Lemma StringToNumber_comma (s : string) :
  hasComma s = true -> JS.StringToNumber s = JS.NaN.
Proof.
  intros Hs. rewrite <- trim_comma in Hs. unfold JS.StringToNumber.
  destruct (JS.trim s) as [| c r]; [discriminate Hs |].
  destruct c as [[] [] [] [] [] [] [] []]; cbv beta iota;
    try (apply parseStrDecimalLiteral_comma; exact Hs).
  destruct r as [| c2 r2]; [discriminate Hs |].
  destruct c2 as [[] [] [] [] [] [] [] []]; cbv beta iota;
    first [ apply parseStrDecimalLiteral_comma; exact Hs
          | rewrite parseDigits_comma by exact Hs; reflexivity ].
Qed.

(** X5. [pidValidator] refuses every input of two values or more: the
    values are joined with a comma before they are read as a number, and
    the result is not a number. *)
Theorem pidValidator_rejects_several_values (x y : ArgValue) (rest : ParsedArgData) :
  exists message : string, pidValidator (x :: y :: rest) = VMessage message.
Proof.
  unfold pidValidator.
  destruct (emptyArgumentValidator (x :: y :: rest)) as [| message]; [| eauto].
  unfold Number_of. rewrite (StringToNumber_comma _ (join_comma x y rest)).
  cbn [JS.isSafeInteger andb]. eauto.
Qed.

(** *** Decimal numerals *)

Lemma scanDigits_uint_acc (d : Decimal.uint) (p : positive) (k : Z) :
  JS.scanDigits 10 (Z.pos p) k (NilEmpty.string_of_uint d)
  = (Z.pos (Pos.of_uint_acc d p),
     (k + Z.of_nat (String.length (NilEmpty.string_of_uint d)))%Z,
     EmptyString).
Proof.
  revert p k.
  induction d as [| d IH | d IH | d IH | d IH | d IH | d IH | d IH | d IH | d IH | d IH];
    intros p k;
    [ cbn [NilEmpty.string_of_uint JS.scanDigits Pos.of_uint_acc String.length];
      do 2 f_equal; lia | .. ];
    cbn [NilEmpty.string_of_uint JS.scanDigits Pos.of_uint_acc String.length];
    match goal with
    | |- context [JS.digitIn 10 ?c] =>
        let v := eval vm_compute in (JS.digitIn 10 c) in
        change (JS.digitIn 10 c) with v
    end;
    cbv beta iota;
    match goal with
    | |- JS.scanDigits 10 ?acc _ _ = (Z.pos (Pos.of_uint_acc _ ?q), _, _) =>
        replace acc with (Z.pos q) by lia
    end;
    rewrite IH; do 2 f_equal; lia.
Qed.

Lemma scanDigits_uint (d : Decimal.uint) (k : Z) :
  JS.scanDigits 10 0 k (NilEmpty.string_of_uint d)
  = (Z.of_N (N.of_uint d),
     (k + Z.of_nat (String.length (NilEmpty.string_of_uint d)))%Z,
     EmptyString).
Proof.
  revert k. unfold N.of_uint.
  induction d as [| d IH | d IH | d IH | d IH | d IH | d IH | d IH | d IH | d IH | d IH];
    intros k;
    [ cbn [NilEmpty.string_of_uint JS.scanDigits Pos.of_uint String.length];
      do 2 f_equal; lia
    | cbn [NilEmpty.string_of_uint JS.scanDigits Pos.of_uint String.length];
      change (JS.digitIn 10 "0") with (Some 0%Z); cbv beta iota;
      change (10 * 0 + 0)%Z with 0%Z; rewrite IH; do 2 f_equal; lia
    | .. ];
    cbn [NilEmpty.string_of_uint JS.scanDigits Pos.of_uint String.length];
    match goal with
    | |- context [JS.digitIn 10 ?c] =>
        let v := eval vm_compute in (JS.digitIn 10 c) in
        change (JS.digitIn 10 c) with v
    end;
    cbv beta iota;
    match goal with
    | |- JS.scanDigits 10 ?acc _ _ = (Z.of_N (N.pos (Pos.of_uint_acc _ ?q)), _, _) =>
        change acc with (Z.pos q)
    end;
    rewrite scanDigits_uint_acc; do 2 f_equal; lia.
Qed.

Lemma trimEnd_uint (d : Decimal.uint) :
  JS.trimEnd (NilEmpty.string_of_uint d) = NilEmpty.string_of_uint d.
Proof.
  induction d as [| d IH | d IH | d IH | d IH | d IH | d IH | d IH | d IH | d IH | d IH];
    [reflexivity | ..];
    cbn [NilEmpty.string_of_uint JS.trimEnd]; rewrite IH;
    destruct d; reflexivity.
Qed.

Lemma trim_uint (d : Decimal.uint) :
  JS.trim (NilEmpty.string_of_uint d) = NilEmpty.string_of_uint d.
Proof.
  unfold JS.trim.
  replace (JS.trimStart (NilEmpty.string_of_uint d)) with (NilEmpty.string_of_uint d)
    by (destruct d; reflexivity).
  apply trimEnd_uint.
Qed.

Lemma isBlank_uint (d : Decimal.uint) :
  d <> Decimal.Nil -> isBlank (NilEmpty.string_of_uint d) = false.
Proof. destruct d; [congruence | reflexivity ..]. Qed.

Lemma string_of_uint_length (d : Decimal.uint) :
  d <> Decimal.Nil -> 0 < String.length (NilEmpty.string_of_uint d).
Proof. destruct d; [congruence | simpl; lia ..]. Qed.

Lemma parseUnsignedDecimal_uint (d : Decimal.uint) :
  d <> Decimal.Nil ->
  JS.parseUnsignedDecimal (NilEmpty.string_of_uint d) = Some (Z.of_N (N.of_uint d), 0%Z).
Proof.
  intros Hd. pose proof (string_of_uint_length d Hd) as Hlen.
  unfold JS.parseUnsignedDecimal. rewrite scanDigits_uint. cbv beta iota.
  rewrite (proj2 (Z.eqb_neq _ 0)) by lia. reflexivity.
Qed.

Lemma parseStrDecimalLiteral_uint (d : Decimal.uint) :
  d <> Decimal.Nil ->
  JS.parseStrDecimalLiteral false (NilEmpty.string_of_uint d)
  = JS.roundBinary64 false (Z.of_N (N.of_uint d)) 1.
Proof.
  intros Hd. unfold JS.parseStrDecimalLiteral.
  replace (String.eqb (NilEmpty.string_of_uint d) "Infinity") with false
    by (destruct d; reflexivity).
  rewrite (parseUnsignedDecimal_uint d Hd). unfold JS.ofDecimal.
  change (0 <=? 0)%Z with true. cbv iota.
  by rewrite Z.pow_0_r, Z.mul_1_r.
Qed.

(** A string of decimal digits is read as the integer it denotes. *)
Lemma StringToNumber_uint (d : Decimal.uint) :
  d <> Decimal.Nil ->
  JS.StringToNumber (NilEmpty.string_of_uint d)
  = JS.roundBinary64 false (Z.of_N (N.of_uint d)) 1.
Proof.
  intros Hd. rewrite <- (parseStrDecimalLiteral_uint d Hd).
  unfold JS.StringToNumber. rewrite trim_uint.
  destruct d as [| d | d | d | d | d | d | d | d | d | d];
    [congruence | | reflexivity ..].
  destruct d; reflexivity.
Qed.

(** An integer from 2^53 on rounds to a double outside the safe range. *)
Lemma roundBinary64_unsafe_integer (n : Z) :
  (2 ^ 53 <= n)%Z -> JS.isSafeInteger (JS.roundBinary64 false n 1) = false.
Proof.
  intros Hn.
  assert (Hpos : (0 < n)%Z) by (pose proof (Z.pow_pos_nonneg 2 53); lia).
  pose proof (Z.log2_le_mono _ _ Hn) as Hl. rewrite Z.log2_pow2 in Hl by lia.
  pose proof (Z.log2_spec n Hpos) as [Hlow _].
  unfold JS.roundBinary64.
  replace (Z.log2 1) with 0%Z by reflexivity.
  rewrite Z.sub_0_r, Z.mul_1_l.
  rewrite (proj2 (Z.eqb_neq n 0)) by lia.
  rewrite (proj2 (Z.leb_le 0 (Z.log2 n))) by lia.
  rewrite (proj2 (Z.leb_le (2 ^ Z.log2 n) n)) by lia.
  rewrite Z.max_l by lia.
  rewrite (proj2 (Z.ltb_ge (Z.log2 n - 52) 0)) by lia.
  rewrite Z.mul_1_l.
  set (q := (Z.log2 n - 52)%Z). assert (Hq : (1 <= q)%Z) by (unfold q; lia).
  assert (Hpow : (2 <= 2 ^ q)%Z).
  { change 2%Z with (2 ^ 1)%Z at 1. apply Z.pow_le_mono_r; lia. }
  assert (Hm : (2 ^ 52 <= n / 2 ^ q)%Z).
  { apply Z.div_le_lower_bound; [lia |].
    replace (2 ^ q * 2 ^ 52)%Z with (2 ^ Z.log2 n)%Z; [exact Hlow |].
    rewrite <- Z.pow_add_r by lia. f_equal. unfold q. lia. }
  set (m := (n / 2 ^ q)%Z) in *.
  set (m' := if (2 * (n mod 2 ^ q) <? 2 ^ q)%Z then m
             else if (2 ^ q <? 2 * (n mod 2 ^ q))%Z then (m + 1)%Z
             else if Z.even m then m else (m + 1)%Z).
  assert (Hm' : (m <= m')%Z).
  { unfold m'. destruct (2 * (n mod 2 ^ q) <? 2 ^ q)%Z; [lia |].
    destruct (2 ^ q <? 2 * (n mod 2 ^ q))%Z; [lia |]. destruct (Z.even m); lia. }
  destruct ((0 <=? q) && (2 ^ 1024 <=? m' * 2 ^ q))%Z; [reflexivity |].
  unfold JS.isSafeInteger. rewrite (proj2 (Z.leb_le 0 q)) by lia.
  apply Z.leb_gt.
  assert ((2 ^ 52 * 2 <= m' * 2 ^ q)%Z) by (apply Z.mul_le_mono_nonneg; lia).
  change (2 ^ 53)%Z with (2 ^ 52 * 2)%Z. lia.
Qed.

Lemma pidValidator_uint (d : Decimal.uint) :
  pidValidator [VString (NilEmpty.string_of_uint d)] = VTrue
  <-> (0 < N.of_uint d < 2 ^ 53)%N.
Proof.
  unfold pidValidator. rewrite emptyArgumentValidator_string.
  assert (d = Decimal.Nil \/ d <> Decimal.Nil) as [-> | Hd]
    by (destruct d; [by left | right; discriminate ..]).
  { split; [discriminate |]. cbn. lia. }
  rewrite (isBlank_uint d Hd). unfold Number_of. cbn [String_of join ToString].
  rewrite (StringToNumber_uint d Hd).
  assert (H53 : Z.of_N (2 ^ 53) = (2 ^ 53)%Z) by reflexivity.
  destruct (Z.eq_dec (Z.of_N (N.of_uint d)) 0%Z) as [H0 | H0].
  { rewrite H0. split; [discriminate | lia]. }
  destruct (Z_lt_le_dec (Z.of_N (N.of_uint d)) (2 ^ 53)) as [Hlt | Hge].
  - destruct (safe_integer_is_pid (Z.of_N (N.of_uint d))) as [-> ->]; [lia |].
    split; [lia | reflexivity].
  - rewrite (roundBinary64_unsafe_integer _ Hge). split; [discriminate | lia].
Qed.

(** X6. On a string of decimal digits [pidValidator] returns true exactly
    when the number the digits denote is between 1 and 2^53 - 1, leading
    zeros allowed; so every integer of that range, written in decimal, is
    a PID, and no other natural number is. *)
Theorem pidValidator_decimal_range :
  (forall d : Decimal.uint,
      pidValidator [VString (NilEmpty.string_of_uint d)] = VTrue
      <-> (0 < N.of_uint d < 2 ^ 53)%N)
  /\ (forall n : N,
        pidValidator [VString (NilEmpty.string_of_uint (N.to_uint n))] = VTrue
        <-> (0 < n < 2 ^ 53)%N).
Proof.
  split; [exact pidValidator_uint |].
  intros n. rewrite pidValidator_uint. by rewrite DecimalN.Unsigned.of_to.
Qed.

Lemma pidValidator_decimal_range_witness :
  pidValidator [VString "4242"] = VTrue
  /\ pidValidator [VString "9007199254740992"] <> VTrue.
Proof.
  destruct pidValidator_decimal_range as [_ H]. split.
  - apply (H 4242%N). vm_compute. split; reflexivity.
  - intros Hacc. apply (H 9007199254740992%N) in Hacc.
    vm_compute in Hacc. destruct Hacc as [_ Hlt]. discriminate Hlt.
Defined.

(** ** More on the gate *)

Section GateSoundness.

Variable UPGRADE_ENDPOINT_FOR_RESPONDER : string.
Variable INSUFFICIENT_PRIVILEGES_FOR_COMMAND : string.
Hypothesis upgrade_nonempty : UPGRADE_ENDPOINT_FOR_RESPONDER <> EmptyString.
Hypothesis insufficient_nonempty : INSUFFICIENT_PRIVILEGES_FOR_COMMAND <> EmptyString.

Local Abbreviation authorize :=
  (capabilitiesAndPrivilegesValidator
     UPGRADE_ENDPOINT_FOR_RESPONDER INSUFFICIENT_PRIVILEGES_FOR_COMMAND).

(** X7. The gate returns true only for a command of the table whose
    [meta] holds a capability array with the command's capability in it
    and a privileges object with the command's privilege granted, and for
    every such command it does: no command outside the table, without the
    capability or without the privilege passes. *)
Theorem gate_passes_iff (command : Command) :
  authorize command = Normal VTrue
  <-> exists (entry : CapabilityAndPrivilege) (endpointCapabilities : list string)
             (endpointPrivileges : EndpointPrivileges),
        commandToCapabilitiesPrivilegesMap !! name (commandDefinition command)
        = Some entry
        /\ capabilities (meta (commandDefinition command)) = Some endpointCapabilities
        /\ privileges (meta (commandDefinition command)) = Some endpointPrivileges
        /\ includes endpointCapabilities (capability entry) = true
        /\ privilege entry endpointPrivileges = true.
Proof.
  split.
  - intros Hok.
    destruct (commandToCapabilitiesPrivilegesMap !! name (commandDefinition command))
      as [entry |] eqn:Hentry.
    2: { rewrite (capabilitiesAndPrivilegesValidator_unknown _ _ _ Hentry
                    upgrade_nonempty) in Hok. discriminate Hok. }
    pose proof (commandTable_capability_truthy _ _ Hentry) as Ht.
    destruct (capabilities (meta (commandDefinition command)))
      as [endpointCapabilities |] eqn:Hcaps.
    2: { exfalso. unfold capabilitiesAndPrivilegesValidator in Hok.
         rewrite Hentry, Hcaps in Hok. simpl in Ht, Hok.
         destruct (capability entry); [discriminate Ht | discriminate Hok]. }
    destruct (privileges (meta (commandDefinition command)))
      as [endpointPrivileges |] eqn:Hprivs.
    2: { exfalso.
         unfold capabilitiesAndPrivilegesValidator, getRbacControlOfMeta in Hok.
         rewrite Hentry, Hcaps, Hprivs in Hok. simpl in Ht, Hok.
         destruct (capability entry) as [| c r]; [discriminate Ht |].
         destruct (negb (includes endpointCapabilities (String c r)));
           discriminate Hok. }
    exists entry, endpointCapabilities, endpointPrivileges.
    rewrite (capabilitiesAndPrivilegesValidator_table _ _ _ _ _ _ Hentry Hcaps Hprivs)
      in Hok.
    cbv zeta in Hok.
    destruct (includes endpointCapabilities (capability entry)),
      (privilege entry endpointPrivileges);
      rewrite ?append_empty_l, ?append_empty_r, ?nonempty_length,
        ?nonempty_append_length in Hok by assumption;
      try discriminate Hok.
    repeat split; reflexivity.
  - intros (entry & endpointCapabilities & endpointPrivileges
            & Hentry & Hcaps & Hprivs & Hin & Hpriv).
    rewrite (capabilitiesAndPrivilegesValidator_table _ _ _ _ _ _ Hentry Hcaps Hprivs).
    by rewrite Hin, Hpriv.
Qed.

(** X8. A command name that the table does not hold is refused with the
    upgrade message followed by the insufficient-privilege message,
    whatever capabilities and privileges its [meta] carries. *)
Theorem gate_refuses_unknown_command (command : Command) :
  commandToCapabilitiesPrivilegesMap !! name (commandDefinition command) = None ->
  authorize command
  = Normal (VMessage (UPGRADE_ENDPOINT_FOR_RESPONDER
                      +:+ INSUFFICIENT_PRIVILEGES_FOR_COMMAND)).
Proof.
  intros Hnone.
  exact (capabilitiesAndPrivilegesValidator_unknown _ _ _ Hnone upgrade_nonempty).
Qed.

End GateSoundness.

Lemma gate_passes_iff_witness :
  capabilitiesAndPrivilegesValidator "upgrade required" "insufficient privileges"
    {| commandDefinition := isolateCommand "agent-1" ["isolation"] allPrivileges |}
  = Normal VTrue.
Proof.
  apply (gate_passes_iff "upgrade required" "insufficient privileges"
           ltac:(discriminate) ltac:(discriminate)).
  exists {| capability := "isolation"; privilege := canIsolateHost |},
    ["isolation"], allPrivileges.
  repeat split; reflexivity.
Defined.

Lemma gate_refuses_unknown_command_witness :
  capabilitiesAndPrivilegesValidator "upgrade required" "insufficient privileges"
    {| commandDefinition := statusCommand "agent-1" |}
  = Normal (VMessage "upgrade requiredinsufficient privileges").
Proof.
  apply (gate_refuses_unknown_command "upgrade required" "insufficient privileges");
    [discriminate | reflexivity].
Defined.

(** X9. [getRbacControl] denies by default: it is false for every command
    when no privilege is granted, false for a command outside the table
    even when every privilege is granted, and whenever it is true the
    command is one of the seven of the table. *)
Theorem getRbacControl_denies_by_default (commandName : string)
    (endpointPrivileges : EndpointPrivileges) :
  getRbacControl commandName noPrivileges = false
  /\ (commandToCapabilitiesPrivilegesMap !! commandName = None ->
      getRbacControl commandName endpointPrivileges = false)
  /\ (getRbacControl commandName endpointPrivileges = true ->
      commandName ∈ ["isolate"; "release"; "kill-process"; "suspend-process";
                     "processes"; "get-file"; "execute"]).
Proof.
  unfold getRbacControl.
  destruct (commandToCapabilitiesPrivilegesMap !! commandName) as [entry |] eqn:Hentry;
    [| repeat split; (done || discriminate)].
  apply commandTable_lookup in Hentry. unfold commandTable in Hentry.
  repeat (apply elem_of_cons in Hentry as [Hentry | Hentry];
          [injection Hentry as -> ->;
           split; [reflexivity | split; [discriminate | intros _; set_solver]] |]).
  by apply elem_of_nil in Hentry.
Qed.

Lemma getRbacControl_denies_by_default_witness :
  getRbacControl "status" allPrivileges = false.
Proof.
  apply (getRbacControl_denies_by_default "status" allPrivileges). reflexivity.
Defined.

(** ** More on the registry *)

Section RegistryInvariants.

Variable features : ExperimentalFeatures.
Variable endpointAgentId : string.
Variable endpointCapabilities : list string.
Variable endpointPrivileges : EndpointPrivileges.

Local Abbreviation commands :=
  (consoleCommandsFor features endpointAgentId endpointCapabilities endpointPrivileges).

Local Ltac each_command Hd :=
  apply consoleCommandsFor_elem in Hd;
  destruct Hd as [-> | [-> | [-> | [-> | [-> | [-> | [[_ ->] | [_ ->]]]]]]]].

(** X10. No two commands of the list have the same name, whatever the
    feature flags, the capabilities and the privileges. *)
Theorem command_names_unique :
  NoDup (name <$> consoleCommandsFor features endpointAgentId endpointCapabilities
                    endpointPrivileges).
Proof.
  rewrite consoleCommandsFor_names.
  destruct (responseActionGetFileEnabled features),
    (responseActionExecuteEnabled features); compute_done.
Qed.

(** X11. Every command of the list carries in its [meta] the agent id the
    list was built for. *)
Theorem commands_target_the_endpoint (d : CommandDefinition) :
  d ∈ commands -> endpointId (meta d) = endpointAgentId.
Proof. intros Hd. each_command Hd; reflexivity. Qed.

(** X12. A command of the list goes through the gate exactly when the
    table knows its name, and the only command without [validate] is
    status. *)
Theorem gated_exactly_table_commands (d : CommandDefinition) :
  d ∈ commands ->
  (validate d = Some CapabilitiesAndPrivilegesValidator
   <-> is_Some (commandToCapabilitiesPrivilegesMap !! name d))
  /\ (validate d = None <-> name d = "status").
Proof.
  intros Hd. each_command Hd;
    (split; split; intros H;
     first [ reflexivity | discriminate H | by eexists
           | cbn [name statusCommand] in H; rewrite lookup_status in H;
             by destruct H ]).
Qed.

(** X13. Every command of the list other than status takes an optional,
    single-valued [comment] argument with no validator. *)
Theorem every_action_takes_a_comment (d : CommandDefinition) :
  d ∈ commands -> name d <> "status" ->
  exists arg : Arg.t,
    ("comment", arg) ∈ args d
    /\ Arg.required arg = false /\ Arg.allowMultiples arg = false
    /\ Arg.validate arg = None.
Proof.
  intros Hd Hname. exists commentArg.
  each_command Hd; try (exfalso; apply Hname; reflexivity);
    (split; [cbn [args isolateCommand releaseCommand killProcessCommand
                  suspendProcessCommand processesCommand getFileCommand
                  executeCommand];
             rewrite !elem_of_cons; tauto
            | repeat split]).
Qed.

(** X14. A command of the list that declares a required argument or an
    exclusive-or argument has [mustHaveArgs] set, and the other commands
    leave it out. *)
Theorem mustHaveArgs_iff_needed (d : CommandDefinition) :
  d ∈ commands ->
  mustHaveArgs d = Some true
  <-> exists (argName : string) (arg : Arg.t),
        (argName, arg) ∈ args d
        /\ (Arg.required arg = true \/ Arg.exclusiveOr arg = Some true).
Proof.
  intros Hd.
  assert (Hno : forall d' : CommandDefinition,
             Forall (fun e => Arg.required e.2 = false /\ Arg.exclusiveOr e.2 = None)
               (args d') ->
             (exists (argName : string) (arg : Arg.t),
                 (argName, arg) ∈ args d'
                 /\ (Arg.required arg = true \/ Arg.exclusiveOr arg = Some true))
             -> False).
  { intros d' Hall (argName & arg & Hin & Hneed).
    rewrite Forall_forall in Hall. destruct (Hall _ Hin) as [Hr Hx]. cbn in Hr, Hx.
    destruct Hneed; congruence. }
  each_command Hd;
    first
      [ (* no argument needed *)
        split; [discriminate |];
        intros H; exfalso; revert H; apply Hno; repeat constructor
      | (* an exclusive-or argument *)
        split; [intros _ | reflexivity];
        eexists "pid", _; split; [right; left; reflexivity | right; reflexivity]
      | (* a required argument *)
        split; [intros _ | reflexivity];
        eexists _, _; split; [left; reflexivity | left; reflexivity] ].
Qed.

(** X15. For every command of the list other than get-file, the
    [isSupported] of the about info and [helpDisabled] agree: the command
    is disabled exactly when its about info says unsupported. *)
Theorem about_agrees_with_helpDisabled (d : CommandDefinition)
    (aboutInfo : string) (isSupported : bool) :
  d ∈ commands -> name d <> "get-file" ->
  about d = CommandAboutInfo aboutInfo isSupported ->
  helpDisabled d = Some (negb isSupported).
Proof.
  intros Hd Hname Habout.
  each_command Hd; try (exfalso; apply Hname; reflexivity); try discriminate Habout;
    injection Habout as _ <-;
    cbn [helpDisabled isolateCommand releaseCommand killProcessCommand
         suspendProcessCommand processesCommand executeCommand];
    match goal with
    | |- context [doesEndpointSupportCommand ?caps ?n] =>
        by destruct (doesEndpointSupportCommand caps n)
    end.
Qed.

End RegistryInvariants.

Lemma validate_in_table (features : ExperimentalFeatures) (endpointAgentId : string)
    (endpointCapabilities : list string) (endpointPrivileges : EndpointPrivileges)
    (d : CommandDefinition) (v : CommandValidate) :
  d ∈ consoleCommandsFor features endpointAgentId endpointCapabilities endpointPrivileges ->
  validate d = Some v ->
  exists entry : CapabilityAndPrivilege,
    commandToCapabilitiesPrivilegesMap !! name d = Some entry.
Proof.
  intros Hd Hv. apply consoleCommandsFor_elem in Hd.
  destruct Hd as [-> | [-> | [-> | [-> | [-> | [-> | [[_ ->] | [_ ->]]]]]]]];
    first [discriminate Hv | by eexists].
Qed.

(** X16. The help flags of a command of the list and the gate agree: the
    gate, run on the command as the list built it, never throws, and it
    returns true exactly when the command is neither disabled nor hidden
    in the help. *)
Theorem help_flags_agree_with_gate
    (UPGRADE_ENDPOINT_FOR_RESPONDER INSUFFICIENT_PRIVILEGES_FOR_COMMAND : string)
    (features : ExperimentalFeatures) (endpointAgentId : string)
    (endpointCapabilities : list string) (endpointPrivileges : EndpointPrivileges)
    (d : CommandDefinition) (v : CommandValidate) :
  UPGRADE_ENDPOINT_FOR_RESPONDER <> EmptyString ->
  INSUFFICIENT_PRIVILEGES_FOR_COMMAND <> EmptyString ->
  d ∈ consoleCommandsFor features endpointAgentId endpointCapabilities endpointPrivileges ->
  validate d = Some v ->
  (exists result : ValidationResult,
      runValidate UPGRADE_ENDPOINT_FOR_RESPONDER INSUFFICIENT_PRIVILEGES_FOR_COMMAND v
        {| commandDefinition := d |} = Normal result)
  /\ (runValidate UPGRADE_ENDPOINT_FOR_RESPONDER INSUFFICIENT_PRIVILEGES_FOR_COMMAND v
        {| commandDefinition := d |} = Normal VTrue
      <-> helpDisabled d = Some false /\ helpHidden d = Some false).
Proof.
  intros Hup Hins Hd Hv. destruct v.
  destruct (validate_in_table _ _ _ _ _ _ Hd Hv) as [entry Hentry].
  destruct (gated_flags _ _ _ _ _ _ Hd Hentry) as [-> ->].
  rewrite (registry_command_gate _ _ _ _ _ _ _ _ Hd Hentry Hup Hins).
  destruct (includes endpointCapabilities (capability entry)),
    (privilege entry endpointPrivileges); cbn [negb];
    (split; [eauto |]); split; try discriminate; try (intros [? ?]; discriminate);
    done.
Qed.

Lemma help_flags_agree_with_gate_witness :
  runValidate "upgrade required" "insufficient privileges"
    CapabilitiesAndPrivilegesValidator
    {| commandDefinition := processesCommand "agent-1" ["running_processes"] allPrivileges |}
  = Normal VTrue.
Proof.
  destruct (help_flags_agree_with_gate "upgrade required" "insufficient privileges"
              allFeatures "agent-1" ["running_processes"] allPrivileges
              (processesCommand "agent-1" ["running_processes"] allPrivileges)
              CapabilitiesAndPrivilegesValidator) as [_ H].
  - discriminate.
  - discriminate.
  - apply consoleCommandsFor_elem. do 5 right. left. reflexivity.
  - reflexivity.
  - apply H. split; reflexivity.
Defined.

(** X17. The two help flags do not interfere: [helpDisabled] of the
    commands does not depend on the privileges, and [helpHidden] does not
    depend on the capabilities. *)
Theorem help_flags_do_not_interfere (features : ExperimentalFeatures)
    (endpointAgentId : string) (capabilities1 capabilities2 : list string)
    (privileges1 privileges2 : EndpointPrivileges) :
  helpDisabled <$> consoleCommandsFor features endpointAgentId capabilities1 privileges1
  = helpDisabled <$> consoleCommandsFor features endpointAgentId capabilities1 privileges2
  /\ helpHidden <$> consoleCommandsFor features endpointAgentId capabilities1 privileges1
     = helpHidden <$> consoleCommandsFor features endpointAgentId capabilities2
                        privileges1.
Proof.
  rewrite !consoleCommandsFor_unfold.
  destruct (responseActionGetFileEnabled features),
    (responseActionExecuteEnabled features); split; reflexivity.
Qed.

Lemma commands_target_the_endpoint_witness :
  endpointId (meta (executeCommand "agent-1" [] noPrivileges)) = "agent-1".
Proof.
  apply (commands_target_the_endpoint allFeatures "agent-1" [] noPrivileges).
  apply consoleCommandsFor_elem. do 7 right. split; reflexivity.
Defined.

Lemma gated_exactly_table_commands_witness :
  validate (statusCommand "agent-1") = None.
Proof.
  apply (gated_exactly_table_commands allFeatures "agent-1" [] noPrivileges
           (statusCommand "agent-1")).
  - apply consoleCommandsFor_elem. do 4 right. left. reflexivity.
  - reflexivity.
Defined.

Lemma every_action_takes_a_comment_witness :
  exists arg : Arg.t,
    ("comment", arg) ∈ args (getFileCommand "agent-1" [] noPrivileges)
    /\ Arg.required arg = false /\ Arg.allowMultiples arg = false
    /\ Arg.validate arg = None.
Proof.
  apply (every_action_takes_a_comment allFeatures "agent-1" [] noPrivileges).
  - apply consoleCommandsFor_elem. do 6 right. left. split; reflexivity.
  - discriminate.
Defined.

Lemma mustHaveArgs_iff_needed_witness :
  mustHaveArgs (killProcessCommand "agent-1" [] noPrivileges) = Some true.
Proof.
  apply (mustHaveArgs_iff_needed allFeatures "agent-1" [] noPrivileges).
  - apply consoleCommandsFor_elem. do 2 right. left. reflexivity.
  - eexists "pid", _. split; [right; left; reflexivity | right; reflexivity].
Defined.

Lemma about_agrees_with_helpDisabled_witness :
  helpDisabled (isolateCommand "agent-1" [] allPrivileges) = Some true.
Proof.
  apply (about_agrees_with_helpDisabled allFeatures "agent-1" [] allPrivileges
           (isolateCommand "agent-1" [] allPrivileges) "Isolate the host" false).
  - apply consoleCommandsFor_elem. left. reflexivity.
  - discriminate.
  - reflexivity.
Defined.
